(** * A shallow embedding of the todo backend (src/todo_backend/src/api/main.py)

    The service is a set of HTTP handlers over one SQLite table [todos].
    Every handler opens a connection, runs one or two SQL statements,
    commits and closes.  The embedding passes the database explicitly:
    a handler is a function from the database before the request to the
    outcome of the request and the database after it.

    What is modelled, and how:
    - the table [todos] is a finite map from the primary key [id] to the
      other four columns; [completed] is the INTEGER the table stores;
    - [AUTOINCREMENT] is the counter of the largest key ever handed out
      (SQLite keeps it in [sqlite_sequence]);
    - [datetime.now(timezone.utc)] is an input of the handler, the clock
      reading in microseconds since the epoch; [_utc_now_iso] cuts it to
      whole seconds.  A timestamp text [YYYY-MM-DDTHH:MM:SSZ] is
      represented by the number of whole seconds it denotes, which keeps
      both equality and order of the texts;
    - the checks FastAPI and pydantic run from the declared parameter
      types ([Path(..., ge=1)], [Field(..., min_length=1)]) are part of the
      handler, since they are part of its signature in the source.
    - a key of the table is a 64-bit integer: a path id outside that
      range is in no table, and binding it to a statement raises
      [OverflowError], which the service answers with a 500.
    Integers are otherwise unbounded, as Python's are.  Outside the model:
    a table that has reached the last key 2^63-1 (the storage engine then
    refuses the insert), and a database file that could not be opened. *)

From Stdlib Require Import ZArith String List Lia.
From stdpp Require Import gmap strings list fin_maps sorting.

Open Scope Z_scope.

(** ** Data model *)

(** A timestamp text, as the number of whole seconds since the epoch. *)
Abbreviation timestamp := Z (only parsing).

(** [_utc_now_iso]: the clock reading with [microsecond=0]. *)
Definition _utc_now_iso (clock : Z) : timestamp := clock / 1000000.

(** The columns of a row of [todos] besides the key. *)
Module Row.
Record t := mk {
  title : string;
  completed : Z;
  created_at : option timestamp;
  updated_at : option timestamp
}.
End Row.

(** The response model [Todo]. *)
Module Todo.
Record t := mk {
  id : Z;
  title : string;
  completed : bool;
  created_at : option timestamp;
  updated_at : option timestamp
}.
End Todo.

(** The response model [TodoList]. *)
Module TodoList.
Record t := mk {
  items : list Todo.t;
  total : Z
}.
End TodoList.

(** The validated request model [TodoCreate]. *)
Module TodoCreate.
Record t := mk {
  title : string;
  completed : option bool
}.
End TodoCreate.

(** The validated request model [TodoUpdate]. *)
Module TodoUpdate.
Record t := mk {
  title : string;
  completed : bool
}.
End TodoUpdate.

(** A field of a JSON request body: absent, [null], a value pydantic
    takes for the declared type, or a value it refuses for that type (a
    list for a [str], the text "maybe" for a [bool]). *)
Inductive field (A : Type) : Type :=
  | Missing : field A
  | Null : field A
  | Value : A → field A
  | Invalid : field A.
Arguments Missing {A}.
Arguments Null {A}.
Arguments Value {A} _.
Arguments Invalid {A}.

(** The JSON body of POST /todos and PUT /todos/{id}. *)
Record json_body := mk_body {
  body_title : field string;
  body_completed : field bool
}.

(** [Response(status_code=...)]: a bare response with an empty body. *)
Record Response := mk_response {
  status_code : Z;
  body : string
}.

(** What a request ends in: the handler's return value, an
    [HTTPException] it raised, the 422 FastAPI answers when a declared
    parameter check fails, or an uncaught exception (500). *)
Inductive outcome (A : Type) : Type :=
  | Returned : A → outcome A
  | HTTPException : Z → string → outcome A
  | RequestValidationError : outcome A
  | ServerError : outcome A.
Arguments Returned {A} _.
Arguments HTTPException {A} _ _.
Arguments RequestValidationError {A}.
Arguments ServerError {A}.

(** The database: the table and the AUTOINCREMENT counter. *)
Record store := mk_store {
  todos : gmap Z Row.t;
  sqlite_sequence : Z
}.

(** A fetched [sqlite3.Row] of [SELECT *]: the key and the columns. *)
Abbreviation sqlite_row := (Z * Row.t)%type (only parsing).

(** ** Schema *)

(** [_init_db]: CREATE TABLE IF NOT EXISTS.  [None] is a database file
    without the table. *)
Definition _init_db (file : option store) : store :=
  match file with
  | Some db => db
  | None => {| todos := ∅; sqlite_sequence := 0 |}
  end.

(** ** Request validation *)

(** [Field(..., min_length=1)] on a [str]. *)
Definition min_length_1 (s : string) : bool :=
  (1 <=? Z.of_nat (String.length s)).

(** [TodoCreate]: [title] a required [str] with [min_length=1];
    [completed] an [Optional[bool]] with default [False].  Any field that
    fails makes the request fail. *)
Definition parse_TodoCreate (b : json_body) : option TodoCreate.t :=
  match body_title b, body_completed b with
  | Value s, Missing =>
      if min_length_1 s then
        Some {| TodoCreate.title := s; TodoCreate.completed := Some false |}
      else None
  | Value s, Null =>
      if min_length_1 s then
        Some {| TodoCreate.title := s; TodoCreate.completed := None |}
      else None
  | Value s, Value c =>
      if min_length_1 s then
        Some {| TodoCreate.title := s; TodoCreate.completed := Some c |}
      else None
  | _, _ => None
  end.

(** [TodoUpdate]: [title] a required [str] with [min_length=1];
    [completed] a required [bool]. *)
Definition parse_TodoUpdate (b : json_body) : option TodoUpdate.t :=
  match body_title b, body_completed b with
  | Value s, Value c =>
      if min_length_1 s then
        Some {| TodoUpdate.title := s; TodoUpdate.completed := c |}
      else None
  | _, _ => None
  end.

(** [Path(..., ge=1)]. *)
Definition path_ge_1 (id : Z) : bool := (1 <=? id).

(** ** SQL statements *)

(** What [conn.execute] with a bound parameter ends in: the statement
    ran, or the parameter did not fit SQLite's INTEGER and the binding
    raised [OverflowError]. *)
Inductive executed (A : Type) : Type :=
  | Executed : A → executed A
  | OverflowError : executed A.
Arguments Executed {A} _.
Arguments OverflowError {A}.

(** A Python int that fits SQLite's 64-bit INTEGER. *)
Definition fits_int64 (n : Z) : bool :=
  (-9223372036854775808 <=? n) && (n <=? 9223372036854775807).

(** The largest key of the table, if it has a row. *)
Definition last_rowid (tbl : gmap Z Row.t) : option Z :=
  foldr (λ kv acc,
           Some match acc with Some m => Z.max kv.1 m | None => kv.1 end)
        None (map_to_list tbl).

(** The key AUTOINCREMENT gives a new row: one more than the largest key
    of the table (1 on an empty table), and at least one more than the
    counter. *)
Definition new_rowid (seq : Z) (tbl : gmap Z Row.t) : Z :=
  let v := match last_rowid tbl with Some k => k + 1 | None => 1 end in
  if v <? seq + 1 then seq + 1 else v.

(** SELECT * FROM todos WHERE id = ?, then [fetchone()].  The keys of a
    table are 64-bit, so an id outside that range is in none, and
    binding it raises [OverflowError]; a row the map holds is fetched
    under whatever key it holds it. *)
Definition sql_select_by_id (id : Z) (db : store)
    : executed (option sqlite_row) :=
  match todos db !! id with
  | Some r => Executed (Some (id, r))
  | None => if fits_int64 id then Executed None else OverflowError
  end.

(** INSERT INTO todos (title, completed, created_at, updated_at).  The
    result is [cur.lastrowid] and the database after the commit. *)
Definition sql_insert (title : string) (completed : Z)
    (created_at updated_at : option timestamp) (db : store) : Z * store :=
  let rowid := new_rowid (sqlite_sequence db) (todos db) in
  (rowid,
   {| todos := <[rowid := Row.mk title completed created_at updated_at]> (todos db);
      sqlite_sequence := rowid |}).

(** UPDATE todos SET title = ?, completed = ?, updated_at = ? WHERE id = ? *)
Definition sql_update (title : string) (completed : Z)
    (updated_at : option timestamp) (id : Z) (db : store) : store :=
  {| todos :=
       alter (λ r, Row.mk title completed (Row.created_at r) updated_at)
             id (todos db);
     sqlite_sequence := sqlite_sequence db |}.

(** UPDATE todos SET completed = ?, updated_at = ? WHERE id = ? *)
Definition sql_update_completed (completed : Z)
    (updated_at : option timestamp) (id : Z) (db : store) : store :=
  {| todos :=
       alter (λ r, Row.mk (Row.title r) completed (Row.created_at r) updated_at)
             id (todos db);
     sqlite_sequence := sqlite_sequence db |}.

(** DELETE FROM todos WHERE id = ?; the result is [cur.rowcount] and the
    database after the statement.  An id that does not fit 64 bits
    cannot be bound. *)
Definition sql_delete (id : Z) (db : store) : executed (Z * store) :=
  if fits_int64 id then
    Executed
      (match todos db !! id with Some _ => 1 | None => 0 end,
       {| todos := delete id (todos db);
          sqlite_sequence := sqlite_sequence db |})
  else OverflowError.

(** ORDER BY id DESC. *)
Definition id_desc : relation sqlite_row := λ a b, b.1 ≤ a.1.

#[global] Instance id_desc_dec : RelDecision id_desc.
Proof. intros a b. unfold id_desc. apply _. Defined.

(** SELECT * FROM todos ORDER BY id DESC, then [fetchall()]. *)
Definition sql_select_all_desc (db : store) : list sqlite_row :=
  merge_sort id_desc (map_to_list (todos db)).

(** ** Handlers *)

(** [_row_to_todo]. *)
Definition _row_to_todo (row : sqlite_row) : Todo.t :=
  {| Todo.id := row.1;
     Todo.title := Row.title row.2;
     Todo.completed := negb (Row.completed row.2 =? 0);
     Todo.created_at := Row.created_at row.2;
     Todo.updated_at := Row.updated_at row.2 |}.

(** Python truth of an [Optional[bool]]. *)
Definition truthy (b : option bool) : bool :=
  match b with Some true => true | _ => false end.

(** The 404 every handler raises for an unknown id. *)
Definition not_found {A : Type} : outcome A :=
  HTTPException 404 "Todo not found".

(** POST /todos *)
Definition create_todo (clock : Z) (b : json_body) (db : store)
    : outcome Todo.t * store :=
  match parse_TodoCreate b with
  | None => (RequestValidationError, db)
  | Some payload =>
      let now := _utc_now_iso clock in
      let completed_int := if truthy (TodoCreate.completed payload) then 1 else 0 in
      let '(todo_id, db') :=
        sql_insert (TodoCreate.title payload) completed_int (Some now) (Some now) db in
      match sql_select_by_id todo_id db' with
      | Executed (Some row) => (Returned (_row_to_todo row), db')
      | Executed None | OverflowError => (ServerError, db')
      end
  end.

(** GET /todos *)
Definition list_todos (db : store) : outcome TodoList.t * store :=
  let rows := sql_select_all_desc db in
  let items := map _row_to_todo rows in
  (Returned {| TodoList.items := items;
               TodoList.total := Z.of_nat (length items) |}, db).

(** GET /todos/{id} *)
Definition get_todo (id : Z) (db : store) : outcome Todo.t * store :=
  if path_ge_1 id then
    match sql_select_by_id id db with
    | OverflowError => (ServerError, db)
    | Executed None => (not_found, db)
    | Executed (Some row) => (Returned (_row_to_todo row), db)
    end
  else (RequestValidationError, db).

(** PUT /todos/{id} *)
Definition update_todo (clock : Z) (b : json_body) (id : Z) (db : store)
    : outcome Todo.t * store :=
  match parse_TodoUpdate b, path_ge_1 id with
  | Some payload, true =>
      match sql_select_by_id id db with
      | OverflowError => (ServerError, db)
      | Executed None => (not_found, db)
      | Executed (Some existing) =>
          let now := _utc_now_iso clock in
          let completed_int := if TodoUpdate.completed payload then 1 else 0 in
          let db' :=
            sql_update (TodoUpdate.title payload) completed_int (Some now) id db in
          match sql_select_by_id id db' with
          | Executed (Some row) => (Returned (_row_to_todo row), db')
          | Executed None | OverflowError => (ServerError, db')
          end
      end
  | _, _ => (RequestValidationError, db)
  end.

(** DELETE /todos/{id} *)
Definition delete_todo (id : Z) (db : store) : outcome Response * store :=
  if path_ge_1 id then
    match sql_delete id db with
    | OverflowError => (ServerError, db)
    | Executed (rowcount, db') =>
        if rowcount =? 0 then (not_found, db')
        else (Returned {| status_code := 204; body := "" |}, db')
    end
  else (RequestValidationError, db).

(** PATCH /todos/{id}/toggle *)
Definition toggle_todo (clock : Z) (id : Z) (db : store)
    : outcome Todo.t * store :=
  if path_ge_1 id then
    match sql_select_by_id id db with
    | OverflowError => (ServerError, db)
    | Executed None => (not_found, db)
    | Executed (Some row) =>
        let current_completed := Row.completed row.2 in
        let new_completed := if current_completed =? 1 then 0 else 1 in
        let now := _utc_now_iso clock in
        let db' := sql_update_completed new_completed (Some now) id db in
        match sql_select_by_id id db' with
        | Executed (Some updated) => (Returned (_row_to_todo updated), db')
        | Executed None | OverflowError => (ServerError, db')
        end
    end
  else (RequestValidationError, db).

(** ** The service as a state machine *)

(** The requests that reach a handler. *)
Inductive request : Type :=
  | CreateTodo : json_body → request
  | ListTodos : request
  | GetTodo : Z → request
  | UpdateTodo : Z → json_body → request
  | DeleteTodo : Z → request
  | ToggleTodo : Z → request.

(** A request together with the clock reading at which it is served. *)
Abbreviation event := (Z * request)%type (only parsing).

(** The database after one request. *)
Definition step (e : event) (db : store) : store :=
  match e.2 with
  | CreateTodo b => (create_todo e.1 b db).2
  | ListTodos => (list_todos db).2
  | GetTodo id => (get_todo id db).2
  | UpdateTodo id b => (update_todo e.1 b id db).2
  | DeleteTodo id => (delete_todo id db).2
  | ToggleTodo id => (toggle_todo e.1 id db).2
  end.

(** The database after a sequence of requests, served one after another. *)
Definition run (tr : list event) (db : store) : store :=
  foldl (λ db e, step e db) db tr.

(** The database of a fresh deployment. *)
Definition fresh : store := _init_db None.

(** The databases the service can get into. *)
Definition reachable (db : store) : Prop :=
  ∃ tr, db = run tr fresh.

(** The clock readings of a trace never go back, starting from [c0]. *)
Fixpoint chronological (c0 : Z) (tr : list event) : Prop :=
  match tr with
  | [] => True
  | e :: tr' => c0 ≤ e.1 ∧ chronological e.1 tr'
  end.

(** The row a mutating request addresses by its path id, if any. *)
Definition rewrites (req : request) : option Z :=
  match req with
  | UpdateTodo id _ | DeleteTodo id | ToggleTodo id => Some id
  | CreateTodo _ | ListTodos | GetTodo _ => None
  end.

(** Order on the timestamps of a response; a missing one compares with
    nothing. *)
Definition ts_le (a b : option timestamp) : Prop :=
  match a, b with Some x, Some y => x ≤ y | _, _ => False end.


(** What the service keeps true of the table, whatever the clock does. *)
Record store_inv (db : store) : Prop := mk_store_inv {
  inv_seq : 0 ≤ sqlite_sequence db;
  inv_key : ∀ id r, todos db !! id = Some r → 1 ≤ id ≤ sqlite_sequence db;
  inv_title : ∀ id r, todos db !! id = Some r → Row.title r ≠ "";
  inv_completed : ∀ id r, todos db !! id = Some r →
    Row.completed r = 0 ∨ Row.completed r = 1
}.

(** What it keeps true of the timestamps while the clock does not go
    back: no row is stamped later than the reading [c]. *)
Definition stamped_by (c : Z) (db : store) : Prop :=
  ∀ id r, todos db !! id = Some r →
    ∃ cr up, Row.created_at r = Some cr ∧ Row.updated_at r = Some up ∧
             cr ≤ up ∧ up ≤ _utc_now_iso c.

(** The last clock reading of a trace that starts at [c0]. *)
Definition last_clock (c0 : Z) (tr : list event) : Z :=
  foldl (λ _ e, e.1) c0 tr.

(** The order of the items of GET /todos: larger ids first. *)
Definition newer_first : relation Todo.t := λ a b, Todo.id b < Todo.id a.

(** ** What the handlers write *)

(** The row POST /todos inserts. *)
Definition created_row (clock : Z) (p : TodoCreate.t) : Row.t :=
  Row.mk (TodoCreate.title p)
         (if truthy (TodoCreate.completed p) then 1 else 0)
         (Some (_utc_now_iso clock)) (Some (_utc_now_iso clock)).

(** The row PUT /todos/{id} leaves in place of [r]. *)
Definition updated_row (clock : Z) (p : TodoUpdate.t) (r : Row.t) : Row.t :=
  Row.mk (TodoUpdate.title p)
         (if TodoUpdate.completed p then 1 else 0)
         (Row.created_at r) (Some (_utc_now_iso clock)).

(** The row PATCH /todos/{id}/toggle leaves in place of [r]. *)
Definition toggled_row (clock : Z) (r : Row.t) : Row.t :=
  Row.mk (Row.title r)
         (if Row.completed r =? 1 then 0 else 1)
         (Row.created_at r) (Some (_utc_now_iso clock)).

(** What a handler ends in for an id from 1 up that is not in the table:
    the 404 when the id can be bound, a 500 when it cannot. *)
Definition unknown_id {A : Type} (id : Z) : outcome A :=
  if fits_int64 id then not_found else ServerError.

(** The key POST /todos assigns. *)
Definition next_id (db : store) : Z :=
  new_rowid (sqlite_sequence db) (todos db).

(** The ways one request changes the database, at clock reading [clock]:
    not at all, or by one of the four writes. *)
Inductive transition (clock : Z) (db : store) : store → Prop :=
  | tr_none : transition clock db db
  | tr_create p :
      TodoCreate.title p ≠ "" →
      transition clock db
        {| todos := <[next_id db := created_row clock p]> (todos db);
           sqlite_sequence := next_id db |}
  | tr_update id p r :
      1 ≤ id → todos db !! id = Some r → TodoUpdate.title p ≠ "" →
      transition clock db
        {| todos := <[id := updated_row clock p r]> (todos db);
           sqlite_sequence := sqlite_sequence db |}
  | tr_toggle id r :
      1 ≤ id → todos db !! id = Some r →
      transition clock db
        {| todos := <[id := toggled_row clock r]> (todos db);
           sqlite_sequence := sqlite_sequence db |}
  | tr_delete id r :
      1 ≤ id → todos db !! id = Some r →
      transition clock db
        {| todos := delete id (todos db);
           sqlite_sequence := sqlite_sequence db |}.

(** ** Configuration *)

(** [os.getenv] on the process environment. *)
Definition getenv (environ : gmap string string) (name : string)
    : option string :=
  environ !! name.

(** [get_db_path]: the first of the two variables that is set to a
    non-empty text ([or] skips [None] and the empty string alike), else
    the default file name. *)
Definition get_db_path (environ : gmap string string) : string :=
  match getenv environ "TODO_SQLITE_DB_PATH" with
  | Some (String a s) => String a s
  | _ =>
      match getenv environ "SQLITE_DB_PATH" with
      | Some (String a s) => String a s
      | _ => "todo.db"
      end
  end.

(** ** Notions the further properties are stated with *)

(** The request ended in the handler's return value. *)
Definition is_returned {A : Type} (o : outcome A) : bool :=
  match o with Returned _ => true | _ => false end.

(** A create that passes validation. *)
Definition accepted_create (req : request) : bool :=
  match req with
  | CreateTodo b =>
      match parse_TodoCreate b with Some _ => true | None => false end
  | _ => false
  end.

(** The number of creates of a trace that pass validation. *)
Fixpoint accepted_creates (tr : list event) : Z :=
  match tr with
  | [] => 0
  | e :: tr' => (if accepted_create e.2 then 1 else 0) + accepted_creates tr'
  end.

(** What GET /todos shows of a database: the items and the total. *)
Definition listing (db : store) : list Todo.t :=
  match (list_todos db).1 with
  | Returned l => TodoList.items l
  | _ => []
  end.

Definition listing_total (db : store) : Z :=
  match (list_todos db).1 with
  | Returned l => TodoList.total l
  | _ => 0
  end.

(** The PUT body that keeps the title of a row and flips its
    [completed], as the response shows it. *)
Definition flipped_body (r : Row.t) : json_body :=
  mk_body (Value (Row.title r)) (Value (Row.completed r =? 0)).

(** ** The SQL statements *)

Section Statements.
Implicit Types (db : store) (id : Z) (r : Row.t).

Lemma last_rowid_ge_key (tbl : gmap Z Row.t) id r :
  tbl !! id = Some r → ∃ k, last_rowid tbl = Some k ∧ id ≤ k.
Proof.
  intros Hin. apply elem_of_map_to_list in Hin. unfold last_rowid.
  induction (map_to_list tbl) as [|kv l IH]; simpl.
  - by apply elem_of_nil in Hin.
  - apply elem_of_cons in Hin as [<-|Hin]; simpl.
    + destruct (foldr _ None l); eexists; (split; [done|lia]).
    + destruct (IH Hin) as (k & -> & Hk). eexists. split; [done|lia].
Qed.

Lemma last_rowid_is_key (tbl : gmap Z Row.t) k :
  last_rowid tbl = Some k → ∃ r, tbl !! k = Some r.
Proof.
  unfold last_rowid.
  assert (∀ kv, kv ∈ map_to_list tbl → ∃ r, tbl !! kv.1 = Some r) as Hall.
  { intros [i r] Hin. apply elem_of_map_to_list in Hin. eauto. }
  revert k. induction (map_to_list tbl) as [|kv l IH]; intros k; simpl; [done|].
  intros [= <-]. destruct (foldr _ None l) as [m|] eqn:E.
  - destruct (Z.max_spec kv.1 m) as [[_ ->]|[_ ->]].
    + apply IH; [|done]. intros ? ?. apply Hall. by right.
    + apply Hall. by left.
  - apply Hall. by left.
Qed.

Lemma new_rowid_above_seq seq (tbl : gmap Z Row.t) : seq < new_rowid seq tbl.
Proof. unfold new_rowid. cbn zeta. case_match; [lia|]. apply Z.ltb_ge in H. lia. Qed.

Lemma new_rowid_above_key seq (tbl : gmap Z Row.t) id r :
  tbl !! id = Some r → id < new_rowid seq tbl.
Proof.
  intros Hin. destruct (last_rowid_ge_key _ _ _ Hin) as (k & Hk & Hle).
  unfold new_rowid. rewrite Hk. cbn zeta.
  destruct (Z.ltb_spec (k + 1) (seq + 1)); lia.
Qed.

(** Where the counter is not negative and no key is above it, the new
    key is the counter plus one. *)
Lemma new_rowid_bounded seq (tbl : gmap Z Row.t) :
  0 ≤ seq → (∀ id r, tbl !! id = Some r → id ≤ seq) →
  new_rowid seq tbl = seq + 1.
Proof.
  intros Hseq Hkey. unfold new_rowid.
  destruct (last_rowid tbl) as [k|] eqn:E; cbn zeta.
  - destruct (last_rowid_is_key _ _ E) as [r Hr]. apply Hkey in Hr.
    destruct (Z.ltb_spec (k + 1) (seq + 1)); lia.
  - destruct (Z.ltb_spec 1 (seq + 1)); lia.
Qed.

Lemma fits_int64_true id :
  1 ≤ id → id ≤ 9223372036854775807 → fits_int64 id = true.
Proof.
  intros. unfold fits_int64. apply andb_true_intro.
  split; apply Z.leb_le; lia.
Qed.

Lemma fits_int64_false id : 9223372036854775807 < id → fits_int64 id = false.
Proof.
  intros. unfold fits_int64. apply andb_false_intro2. apply Z.leb_gt. lia.
Qed.

Lemma unknown_id_in_range {A} id :
  1 ≤ id → id ≤ 9223372036854775807 → unknown_id (A:=A) id = not_found.
Proof. intros. unfold unknown_id. by rewrite fits_int64_true. Qed.

Lemma unknown_id_overflow {A} id :
  9223372036854775807 < id → unknown_id (A:=A) id = ServerError.
Proof. intros. unfold unknown_id. by rewrite fits_int64_false. Qed.

Lemma unknown_id_not_returned {A} id (a : A) : unknown_id id ≠ Returned a.
Proof. unfold unknown_id, not_found. by destruct (fits_int64 id). Qed.

Lemma unknown_id_is_returned {A} id : is_returned (unknown_id (A:=A) id) = false.
Proof. unfold unknown_id, not_found. by destruct (fits_int64 id). Qed.

Lemma unknown_id_not_invalid {A} id :
  unknown_id (A:=A) id ≠ RequestValidationError.
Proof. unfold unknown_id, not_found. by destruct (fits_int64 id). Qed.

Lemma select_Some id db r :
  todos db !! id = Some r → sql_select_by_id id db = Executed (Some (id, r)).
Proof. unfold sql_select_by_id. by intros ->. Qed.

Lemma select_None id db :
  todos db !! id = None →
  sql_select_by_id id db =
    if fits_int64 id then Executed None else OverflowError.
Proof. unfold sql_select_by_id. by intros ->. Qed.

Lemma path_ge_1_true id : 1 ≤ id → path_ge_1 id = true.
Proof. unfold path_ge_1. intros. by apply Z.leb_le. Qed.

Lemma path_ge_1_false id : id < 1 → path_ge_1 id = false.
Proof. unfold path_ge_1. intros. by apply Z.leb_gt. Qed.

Lemma min_length_1_nonempty (s : string) : min_length_1 s = true ↔ s ≠ "".
Proof.
  unfold min_length_1. destruct s; simpl; split; try done.
  intros _. apply Z.leb_le. lia.
Qed.

End Statements.

(** ** The handlers, one equation per branch *)

Section Handlers.
Implicit Types (db : store) (id clock : Z) (r : Row.t) (b : json_body).

Lemma create_todo_invalid clock b db :
  parse_TodoCreate b = None →
  create_todo clock b db = (RequestValidationError, db).
Proof. unfold create_todo. by intros ->. Qed.

Lemma create_todo_valid clock b p db :
  parse_TodoCreate b = Some p →
  create_todo clock b db =
    (Returned (_row_to_todo (next_id db, created_row clock p)),
     {| todos := <[next_id db := created_row clock p]> (todos db);
        sqlite_sequence := next_id db |}).
Proof.
  unfold create_todo. intros ->. cbn [sql_insert].
  fold (next_id db). erewrite select_Some; [done|].
  cbn [todos]. apply lookup_insert_eq.
Qed.

Lemma get_todo_found id db r :
  1 ≤ id → todos db !! id = Some r →
  get_todo id db = (Returned (_row_to_todo (id, r)), db).
Proof.
  intros Hid E. unfold get_todo.
  by rewrite (path_ge_1_true _ Hid), (select_Some _ _ _ E).
Qed.

Lemma get_todo_missing id db :
  1 ≤ id → todos db !! id = None → get_todo id db = (unknown_id id, db).
Proof.
  intros Hid E. unfold get_todo, unknown_id.
  rewrite (path_ge_1_true _ Hid), (select_None _ _ E).
  by destruct (fits_int64 id).
Qed.

Lemma update_todo_found clock b p id db r :
  parse_TodoUpdate b = Some p → 1 ≤ id → todos db !! id = Some r →
  update_todo clock b id db =
    (Returned (_row_to_todo (id, updated_row clock p r)),
     {| todos := <[id := updated_row clock p r]> (todos db);
        sqlite_sequence := sqlite_sequence db |}).
Proof.
  intros Hp Hid E. unfold update_todo.
  rewrite Hp, (path_ge_1_true _ Hid), (select_Some _ _ _ E).
  erewrite select_Some;
    [|unfold sql_update; cbn [todos]; by rewrite lookup_alter_eq, E].
  unfold sql_update. cbn [fmap option_fmap option_map].
  f_equal. f_equal. apply map_eq. intros j.
  destruct (decide (id = j)) as [->|Hne].
  - by rewrite lookup_alter_eq, lookup_insert_eq, E.
  - by rewrite lookup_alter_ne, lookup_insert_ne.
Qed.

Lemma update_todo_missing clock b p id db :
  parse_TodoUpdate b = Some p → 1 ≤ id → todos db !! id = None →
  update_todo clock b id db = (unknown_id id, db).
Proof.
  intros Hp Hid E. unfold update_todo, unknown_id.
  rewrite Hp, (path_ge_1_true _ Hid), (select_None _ _ E).
  by destruct (fits_int64 id).
Qed.

Lemma update_todo_invalid clock b id db :
  parse_TodoUpdate b = None ∨ id < 1 →
  update_todo clock b id db = (RequestValidationError, db).
Proof.
  unfold update_todo. intros [->|Hid]; [done|].
  rewrite (path_ge_1_false _ Hid). by destruct (parse_TodoUpdate b).
Qed.

Lemma delete_todo_found id db r :
  1 ≤ id → id ≤ 9223372036854775807 → todos db !! id = Some r →
  delete_todo id db =
    (Returned {| status_code := 204; body := "" |},
     {| todos := delete id (todos db);
        sqlite_sequence := sqlite_sequence db |}).
Proof.
  intros Hid Hmax E. unfold delete_todo, sql_delete.
  by rewrite (path_ge_1_true _ Hid), (fits_int64_true _ Hid Hmax), E.
Qed.

Lemma delete_todo_missing id db :
  1 ≤ id → todos db !! id = None → delete_todo id db = (unknown_id id, db).
Proof.
  intros Hid E. unfold delete_todo, sql_delete, unknown_id.
  rewrite (path_ge_1_true _ Hid), E.
  destruct (fits_int64 id); [|done]. cbn. f_equal.
  destruct db as [tbl seq]. cbn in *. f_equal. by apply delete_id.
Qed.

Lemma delete_todo_overflow id db :
  9223372036854775807 < id → delete_todo id db = (ServerError, db).
Proof.
  intros Hmax. unfold delete_todo, sql_delete.
  rewrite (path_ge_1_true id) by lia. by rewrite (fits_int64_false _ Hmax).
Qed.

Lemma delete_todo_Returned id db resp db' :
  delete_todo id db = (Returned resp, db') →
  1 ≤ id ≤ 9223372036854775807 ∧
  ∃ r, todos db !! id = Some r ∧
       resp = {| status_code := 204; body := "" |} ∧
       db' = {| todos := delete id (todos db);
                sqlite_sequence := sqlite_sequence db |}.
Proof.
  intros Hdel. destruct (Z_lt_le_dec id 1) as [Hid|Hid].
  { unfold delete_todo in Hdel. by rewrite (path_ge_1_false _ Hid) in Hdel. }
  destruct (Z_le_gt_dec id 9223372036854775807) as [Hmax|Hmax];
    [|rewrite delete_todo_overflow in Hdel by lia; done].
  destruct (todos db !! id) as [r|] eqn:E.
  - rewrite (delete_todo_found _ _ _ Hid Hmax E) in Hdel.
    injection Hdel as <- <-. split; [lia|]. by exists r.
  - rewrite (delete_todo_missing _ _ Hid E) in Hdel. injection Hdel as Hdel _.
    by apply unknown_id_not_returned in Hdel.
Qed.

Lemma toggle_todo_found clock id db r :
  1 ≤ id → todos db !! id = Some r →
  toggle_todo clock id db =
    (Returned (_row_to_todo (id, toggled_row clock r)),
     {| todos := <[id := toggled_row clock r]> (todos db);
        sqlite_sequence := sqlite_sequence db |}).
Proof.
  intros Hid E. unfold toggle_todo.
  rewrite (path_ge_1_true _ Hid), (select_Some _ _ _ E).
  erewrite select_Some;
    [|unfold sql_update_completed; cbn [todos]; by rewrite lookup_alter_eq, E].
  unfold sql_update_completed. cbn [fmap option_fmap option_map snd].
  f_equal. f_equal. apply map_eq. intros j.
  destruct (decide (id = j)) as [->|Hne].
  - by rewrite lookup_alter_eq, lookup_insert_eq, E.
  - by rewrite lookup_alter_ne, lookup_insert_ne.
Qed.

Lemma toggle_todo_missing clock id db :
  1 ≤ id → todos db !! id = None →
  toggle_todo clock id db = (unknown_id id, db).
Proof.
  intros Hid E. unfold toggle_todo, unknown_id.
  rewrite (path_ge_1_true _ Hid), (select_None _ _ E).
  by destruct (fits_int64 id).
Qed.

End Handlers.

(** ** Invariants of the state machine *)

Section Invariants.
Implicit Types (db : store) (id clock : Z) (r : Row.t) (b : json_body).

Lemma parse_TodoCreate_title b p :
  parse_TodoCreate b = Some p → TodoCreate.title p ≠ "".
Proof.
  unfold parse_TodoCreate.
  destruct (body_title b) as [| |s|], (body_completed b) as [| |c|]; try done.
  all: destruct (min_length_1 s) eqn:E; [|done].
  all: intros [= <-]; by apply min_length_1_nonempty.
Qed.

Lemma parse_TodoUpdate_title b p :
  parse_TodoUpdate b = Some p → TodoUpdate.title p ≠ "".
Proof.
  unfold parse_TodoUpdate.
  destruct (body_title b) as [| |s|], (body_completed b) as [| |c|]; try done.
  destruct (min_length_1 s) eqn:E; [|done].
  intros [= <-]. by apply min_length_1_nonempty.
Qed.

(** Every request is one of the five transitions. *)
Lemma step_transition (e : event) db : transition e.1 db (step e db).
Proof.
  destruct e as [clock [b| |id|id b|id|id]]; unfold step; cbn [fst snd].
  - destruct (parse_TodoCreate b) as [p|] eqn:Hp.
    + rewrite (create_todo_valid _ _ _ _ Hp). cbn [snd].
      apply tr_create. by apply (parse_TodoCreate_title b).
    + rewrite (create_todo_invalid _ _ _ Hp). constructor.
  - constructor.
  - unfold get_todo. destruct (path_ge_1 id); [|constructor].
    destruct (sql_select_by_id id db) as [[row|]|]; constructor.
  - destruct (parse_TodoUpdate b) as [p|] eqn:Hp;
      [destruct (Z_lt_le_dec id 1) as [Hid|Hid]|].
    + rewrite update_todo_invalid by auto. constructor.
    + destruct (todos db !! id) as [r|] eqn:E.
      * rewrite (update_todo_found _ _ _ _ _ _ Hp Hid E). cbn [snd].
        apply tr_update; auto. by apply (parse_TodoUpdate_title b).
      * rewrite (update_todo_missing _ _ _ _ _ Hp Hid E). constructor.
    + rewrite update_todo_invalid by auto. constructor.
  - destruct (Z_lt_le_dec id 1) as [Hid|Hid].
    + unfold delete_todo. rewrite (path_ge_1_false _ Hid). constructor.
    + destruct (Z_le_gt_dec id 9223372036854775807) as [Hmax|Hmax];
        [|rewrite delete_todo_overflow by lia; constructor].
      destruct (todos db !! id) as [r|] eqn:E.
      * rewrite (delete_todo_found _ _ _ Hid Hmax E). by eapply tr_delete.
      * rewrite (delete_todo_missing _ _ Hid E). constructor.
  - destruct (Z_lt_le_dec id 1) as [Hid|Hid].
    + unfold toggle_todo. rewrite (path_ge_1_false _ Hid). constructor.
    + destruct (todos db !! id) as [r|] eqn:E.
      * rewrite (toggle_todo_found _ _ _ _ Hid E). by eapply tr_toggle.
      * rewrite (toggle_todo_missing _ _ _ Hid E). constructor.
Qed.

Lemma next_id_above_seq db : sqlite_sequence db < next_id db.
Proof. apply new_rowid_above_seq. Qed.

Lemma next_id_above_key db id r : todos db !! id = Some r → id < next_id db.
Proof. apply new_rowid_above_key. Qed.

Lemma next_id_fresh db : todos db !! next_id db = None.
Proof.
  destruct (todos db !! next_id db) as [r|] eqn:E; [|done].
  apply next_id_above_key in E. lia.
Qed.

Lemma transition_inv clock db db' :
  transition clock db db' → store_inv db → store_inv db'.
Proof.
  intros Ht [Hseq Hkey Htitle Hcompl].
  pose proof (next_id_above_seq db) as Hnext.
  destruct Ht as [|p Hp|id p r Hid E Hp|id r Hid E|id r Hid E];
    [by constructor|..]; constructor; cbn [todos sqlite_sequence];
    try lia; intros j rj Hj.
  - apply lookup_insert_Some in Hj as [[<- <-]|[_ Hj]]; [lia|].
    apply Hkey in Hj. lia.
  - apply lookup_insert_Some in Hj as [[<- <-]|[_ Hj]]; [done|]. eauto.
  - apply lookup_insert_Some in Hj as [[<- <-]|[_ Hj]]; [|eauto].
    cbn. destruct (truthy _); auto.
  - apply lookup_insert_Some in Hj as [[<- <-]|[_ Hj]]; eauto.
  - apply lookup_insert_Some in Hj as [[<- <-]|[_ Hj]]; [done|]. eauto.
  - apply lookup_insert_Some in Hj as [[<- <-]|[_ Hj]]; [|eauto].
    cbn. destruct (TodoUpdate.completed p); auto.
  - apply lookup_insert_Some in Hj as [[<- <-]|[_ Hj]]; eauto.
  - apply lookup_insert_Some in Hj as [[<- <-]|[_ Hj]]; [cbn|]; eauto.
  - apply lookup_insert_Some in Hj as [[<- <-]|[_ Hj]]; [|eauto].
    cbn. destruct (Row.completed r =? 1); auto.
  - apply lookup_delete_Some in Hj as [_ Hj]. eauto.
  - apply lookup_delete_Some in Hj as [_ Hj]. eauto.
  - apply lookup_delete_Some in Hj as [_ Hj]. eauto.
Qed.

Lemma fresh_inv : store_inv fresh.
Proof. constructor; cbn; try lia; intros id r; by rewrite lookup_empty. Qed.

Lemma run_inv tr db : store_inv db → store_inv (run tr db).
Proof.
  revert db. induction tr as [|e tr IH]; intros db Hdb; [done|].
  apply (IH (step e db)). eapply transition_inv; [apply step_transition|done].
Qed.

Lemma reachable_inv db : reachable db → store_inv db.
Proof. intros [tr ->]. apply run_inv, fresh_inv. Qed.

(** The counter never goes down. *)
Lemma transition_seq clock db db' :
  transition clock db db' → sqlite_sequence db ≤ sqlite_sequence db'.
Proof.
  pose proof (next_id_above_seq db).
  destruct 1; cbn [sqlite_sequence]; lia.
Qed.

Lemma run_seq tr db : sqlite_sequence db ≤ sqlite_sequence (run tr db).
Proof.
  revert db. induction tr as [|e tr IH]; intros db; [done|].
  etrans; [|apply (IH (step e db))].
  eapply transition_seq, step_transition.
Qed.

Lemma run_app tr1 tr2 db : run (tr1 ++ tr2) db = run tr2 (run tr1 db).
Proof. unfold run. apply foldl_app. Qed.

(** The timestamp is the second the clock reading falls in. *)
Lemma utc_now_within_second clock :
  1000000 * _utc_now_iso clock ≤ clock < 1000000 * (_utc_now_iso clock + 1).
Proof.
  unfold _utc_now_iso.
  pose proof (Z.mul_div_le clock 1000000 ltac:(lia)).
  pose proof (Z.mul_succ_div_gt clock 1000000 ltac:(lia)). lia.
Qed.

Lemma utc_now_mono c c' : c ≤ c' → _utc_now_iso c ≤ _utc_now_iso c'.
Proof. unfold _utc_now_iso. intros. apply Z.div_le_mono; lia. Qed.

Lemma stamped_by_mono c c' db : c ≤ c' → stamped_by c db → stamped_by c' db.
Proof.
  intros Hc Hdb id r E. destruct (Hdb id r E) as (cr & up & ? & ? & ? & ?).
  exists cr, up. pose proof (utc_now_mono _ _ Hc). repeat split; auto; lia.
Qed.

Lemma transition_stamped clock db db' :
  transition clock db db' → stamped_by clock db → stamped_by clock db'.
Proof.
  intros Ht Hdb.
  destruct Ht as [|p Hp|id p r Hid E Hp|id r Hid E|id r Hid E];
    [done|..]; intros j rj Hj; cbn [todos] in Hj.
  - apply lookup_insert_Some in Hj as [[<- <-]|[_ Hj]]; [|eauto].
    exists (_utc_now_iso clock), (_utc_now_iso clock). cbn. repeat split; lia.
  - apply lookup_insert_Some in Hj as [[<- <-]|[_ Hj]]; [|eauto].
    destruct (Hdb id r E) as (cr & up & ? & ? & ? & ?).
    exists cr, (_utc_now_iso clock). cbn. repeat split; auto; lia.
  - apply lookup_insert_Some in Hj as [[<- <-]|[_ Hj]]; [|eauto].
    destruct (Hdb id r E) as (cr & up & ? & ? & ? & ?).
    exists cr, (_utc_now_iso clock). cbn. repeat split; auto; lia.
  - apply lookup_delete_Some in Hj as [_ Hj]. eauto.
Qed.

Lemma fresh_stamped c : stamped_by c fresh.
Proof. intros id r. cbn. by rewrite lookup_empty. Qed.

Lemma run_stamped tr c0 db :
  chronological c0 tr → stamped_by c0 db →
  stamped_by (last_clock c0 tr) (run tr db).
Proof.
  revert c0 db. induction tr as [|e tr IH]; intros c0 db Hc Hdb; [done|].
  destruct Hc as [Hc0 Hc]. cbn. apply IH; [done|].
  eapply transition_stamped; [apply step_transition|].
  by eapply stamped_by_mono.
Qed.


End Invariants.

(** ** Create *)

(** C3. A create request whose [title] is missing, or is the empty string,
    fails with a validation error and leaves the database as it was: no
    row is created. *)
Theorem create_todo_rejects_empty_title clock (c : field bool) db :
  create_todo clock (mk_body Missing c) db = (RequestValidationError, db) ∧
  create_todo clock (mk_body (Value "") c) db = (RequestValidationError, db).
Proof.
  split; apply create_todo_invalid; unfold parse_TodoCreate; cbn;
    by destruct c.
Qed.

(** C4. A create request with a non-empty title and no [completed]
    returns the record it persisted: [completed] false, a positive id the
    service assigned (one no row had), and [created_at] and [updated_at]
    both the current UTC time, that is the second the clock reading falls
    in.  The row stored under the id holds those values, and a get of
    the id returns the same record. *)
Theorem create_todo_defaults clock (title : string) db :
  reachable db → title ≠ "" →
  ∃ t db' now,
    create_todo clock (mk_body (Value title) Missing) db = (Returned t, db') ∧
    Todo.title t = title ∧
    Todo.completed t = false ∧
    0 < Todo.id t ∧
    todos db !! Todo.id t = None ∧
    Todo.created_at t = Some now ∧
    Todo.updated_at t = Some now ∧
    1000000 * now ≤ clock < 1000000 * (now + 1) ∧
    todos db' !! Todo.id t = Some (Row.mk title 0 (Some now) (Some now)) ∧
    get_todo (Todo.id t) db' = (Returned t, db').
Proof.
  intros Hreach Htitle. apply reachable_inv in Hreach as [Hseq _ _ _].
  apply min_length_1_nonempty in Htitle.
  set (p := {| TodoCreate.title := title; TodoCreate.completed := Some false |}).
  assert (parse_TodoCreate (mk_body (Value title) Missing) = Some p) as Hp.
  { unfold parse_TodoCreate. cbn. by rewrite Htitle. }
  pose proof (next_id_above_seq db) as Hnext.
  pose proof (utc_now_within_second clock) as Hnow.
  eexists _, _, (_utc_now_iso clock).
  split; [apply (create_todo_valid _ _ _ _ Hp)|].
  cbn [_row_to_todo Todo.title Todo.completed Todo.id Todo.created_at
       Todo.updated_at fst snd todos].
  repeat split; try done; try lia.
  - apply next_id_fresh.
  - apply lookup_insert_eq.
  - apply get_todo_found; [lia|]. cbn. by rewrite lookup_insert_eq.
Qed.

Lemma create_todo_defaults_witness :
  reachable (run [(1500000, CreateTodo (mk_body (Value "Buy milk") Missing));
                  (2500000, DeleteTodo 1)] fresh) ∧
  "Buy milk" ≠ "" ∧
  ∃ t db' now,
    create_todo 3500000 (mk_body (Value "Buy milk") Missing)
      (run [(1500000, CreateTodo (mk_body (Value "Buy milk") Missing));
            (2500000, DeleteTodo 1)] fresh) = (Returned t, db') ∧
    Todo.title t = "Buy milk" ∧
    Todo.completed t = false ∧
    0 < Todo.id t ∧
    todos (run [(1500000, CreateTodo (mk_body (Value "Buy milk") Missing));
                (2500000, DeleteTodo 1)] fresh) !! Todo.id t = None ∧
    Todo.created_at t = Some now ∧
    Todo.updated_at t = Some now ∧
    1000000 * now ≤ 3500000 < 1000000 * (now + 1) ∧
    todos db' !! Todo.id t = Some (Row.mk "Buy milk" 0 (Some now) (Some now)) ∧
    get_todo (Todo.id t) db' = (Returned t, db').
Proof.
  split; [by eexists|]. split; [done|].
  apply create_todo_defaults; [by eexists|done].
Defined.

(** ** Update *)

(** C6. An update, with a valid body, addressed to an id from 1 up
    that is not in the table leaves the database as it was: it creates no
    row and modifies none.  It ends in the not-found error when the id is
    at most 2^63-1; for a larger id the [OverflowError] of the binding
    goes uncaught and the request ends in a 500, where the docstring of
    the handler promises the 404. *)
Theorem update_todo_unknown_id clock b p id db :
  parse_TodoUpdate b = Some p → 1 ≤ id → todos db !! id = None →
  (id ≤ 9223372036854775807 →
     update_todo clock b id db = (HTTPException 404 "Todo not found", db)) ∧
  (9223372036854775807 < id →
     update_todo clock b id db = (ServerError, db)).
Proof.
  intros Hp Hid E. rewrite (update_todo_missing _ _ _ _ _ Hp Hid E).
  split; intros Hmax.
  - by rewrite unknown_id_in_range.
  - by rewrite unknown_id_overflow.
Qed.

Lemma update_todo_unknown_id_witness :
  parse_TodoUpdate (mk_body (Value "Buy bread") (Value true)) =
    Some (TodoUpdate.mk "Buy bread" true) ∧
  1 ≤ 9223372036854775808 ∧
  todos (run [(1500000, CreateTodo (mk_body (Value "Buy milk") Missing))] fresh)
    !! 9223372036854775808 = None ∧
  9223372036854775807 < 9223372036854775808 ∧
  update_todo 2500000 (mk_body (Value "Buy bread") (Value true))
    9223372036854775808
    (run [(1500000, CreateTodo (mk_body (Value "Buy milk") Missing))] fresh) =
  (ServerError,
   run [(1500000, CreateTodo (mk_body (Value "Buy milk") Missing))] fresh).
Proof.
  split; [reflexivity|]. split; [lia|]. split; [reflexivity|].
  split; [lia|].
  exact (proj2 (update_todo_unknown_id 2500000
                  (mk_body (Value "Buy bread") (Value true))
                  (TodoUpdate.mk "Buy bread" true) 9223372036854775808
                  (run [(1500000, CreateTodo (mk_body (Value "Buy milk") Missing))]
                     fresh)
                  eq_refl ltac:(lia) eq_refl) ltac:(lia)).
Defined.

(** C7. A successful update of a stored id overwrites [title] and
    [completed] with the values of the request and sets [updated_at] to
    the current UTC time, that is the second the clock reading falls in;
    the id and [created_at] of that row stay, and so does every other
    row.  The record returned carries the id and what the row now
    holds. *)
Theorem update_todo_overwrites clock b p id db r :
  parse_TodoUpdate b = Some p → 1 ≤ id → todos db !! id = Some r →
  ∃ t db' now,
    update_todo clock b id db = (Returned t, db') ∧
    1000000 * now ≤ clock < 1000000 * (now + 1) ∧
    todos db' !! id =
      Some (Row.mk (TodoUpdate.title p)
                   (if TodoUpdate.completed p then 1 else 0)
                   (Row.created_at r) (Some now)) ∧
    (∀ j, j ≠ id → todos db' !! j = todos db !! j) ∧
    sqlite_sequence db' = sqlite_sequence db ∧
    Todo.id t = id ∧
    Todo.title t = TodoUpdate.title p ∧
    Todo.completed t = TodoUpdate.completed p ∧
    Todo.created_at t = Row.created_at r ∧
    Todo.updated_at t = Some now.
Proof.
  intros Hp Hid E. eexists _, _, (_utc_now_iso clock).
  split; [apply (update_todo_found _ _ _ _ _ _ Hp Hid E)|].
  cbn [todos sqlite_sequence]. rewrite lookup_insert_eq.
  pose proof (utc_now_within_second clock).
  repeat split; try done; try lia.
  - intros j Hj. by rewrite lookup_insert_ne.
  - cbn. by destruct (TodoUpdate.completed p).
Qed.

Lemma update_todo_overwrites_witness :
  parse_TodoUpdate (mk_body (Value "Buy bread") (Value true)) =
    Some (TodoUpdate.mk "Buy bread" true) ∧
  1 ≤ 1 ∧
  todos (run [(1500000, CreateTodo (mk_body (Value "Buy milk") Missing))] fresh)
    !! 1 = Some (Row.mk "Buy milk" 0 (Some 1) (Some 1)) ∧
  ∃ t db' now,
    update_todo 2500000 (mk_body (Value "Buy bread") (Value true)) 1
      (run [(1500000, CreateTodo (mk_body (Value "Buy milk") Missing))] fresh)
      = (Returned t, db') ∧
    1000000 * now ≤ 2500000 < 1000000 * (now + 1) ∧
    todos db' !! 1 = Some (Row.mk "Buy bread" 1 (Some 1) (Some now)) ∧
    (∀ j, j ≠ 1 →
       todos db' !! j =
       todos (run [(1500000, CreateTodo (mk_body (Value "Buy milk") Missing))]
                  fresh) !! j) ∧
    sqlite_sequence db' = 1 ∧
    Todo.id t = 1 ∧
    Todo.title t = "Buy bread" ∧
    Todo.completed t = true ∧
    Todo.created_at t = Some 1 ∧
    Todo.updated_at t = Some now.
Proof.
  split; [reflexivity|]. split; [lia|]. split; [reflexivity|].
  exact (update_todo_overwrites 2500000
           (mk_body (Value "Buy bread") (Value true))
           (TodoUpdate.mk "Buy bread" true) 1
           (run [(1500000, CreateTodo (mk_body (Value "Buy milk") Missing))] fresh)
           (Row.mk "Buy milk" 0 (Some 1) (Some 1))
           eq_refl ltac:(lia) eq_refl).
Defined.

(** ** Delete *)

(** C8. A successful delete answers 204 with an empty body; after it, a
    get of the same id and a second delete of the same id both end in the
    not-found error. *)
Theorem delete_todo_then_not_found id db resp db' :
  delete_todo id db = (Returned resp, db') →
  resp = {| status_code := 204; body := "" |} ∧
  todos db' !! id = None ∧
  get_todo id db' = (HTTPException 404 "Todo not found", db') ∧
  delete_todo id db' = (HTTPException 404 "Todo not found", db').
Proof.
  intros Hdel.
  apply delete_todo_Returned in Hdel as ([Hid Hmax] & r & E & -> & ->).
  assert (todos {| todos := delete id (todos db);
                   sqlite_sequence := sqlite_sequence db |} !! id = None)
    as Hgone by apply lookup_delete_eq.
  repeat split; [done|..].
  - rewrite (get_todo_missing _ _ Hid Hgone). by rewrite unknown_id_in_range.
  - rewrite (delete_todo_missing _ _ Hid Hgone).
    by rewrite unknown_id_in_range.
Qed.

Lemma delete_todo_then_not_found_witness :
  delete_todo 1
    (run [(1500000, CreateTodo (mk_body (Value "Buy milk") Missing))] fresh) =
    (Returned {| status_code := 204; body := "" |},
     {| todos := ∅; sqlite_sequence := 1 |}) ∧
  {| status_code := 204; body := "" |} = {| status_code := 204; body := "" |} ∧
  todos {| todos := ∅; sqlite_sequence := 1 |} !! 1 = None ∧
  get_todo 1 {| todos := ∅; sqlite_sequence := 1 |} =
    (HTTPException 404 "Todo not found", {| todos := ∅; sqlite_sequence := 1 |}) ∧
  delete_todo 1 {| todos := ∅; sqlite_sequence := 1 |} =
    (HTTPException 404 "Todo not found", {| todos := ∅; sqlite_sequence := 1 |}).
Proof.
  split; [reflexivity|].
  apply (delete_todo_then_not_found 1
           (run [(1500000, CreateTodo (mk_body (Value "Buy milk") Missing))] fresh)).
  reflexivity.
Defined.

(** ** Path ids below 1 *)

(** C10. A get, update, delete or toggle whose path id is below 1 is
    answered with a validation error whatever the database holds, and
    leaves the database as it was; none of them ends in the not-found
    error, which is left to ids from 1 up. *)
Theorem path_id_below_1_rejected clock b id db :
  id < 1 →
  get_todo id db = (RequestValidationError, db) ∧
  update_todo clock b id db = (RequestValidationError, db) ∧
  delete_todo id db = (RequestValidationError, db) ∧
  toggle_todo clock id db = (RequestValidationError, db) ∧
  (get_todo id db).1 ≠ not_found ∧
  (update_todo clock b id db).1 ≠ not_found ∧
  (delete_todo id db).1 ≠ not_found ∧
  (toggle_todo clock id db).1 ≠ not_found.
Proof.
  intros Hid.
  assert (get_todo id db = (RequestValidationError, db)) as Hget.
  { unfold get_todo. by rewrite (path_ge_1_false _ Hid). }
  assert (update_todo clock b id db = (RequestValidationError, db)) as Hupd.
  { apply update_todo_invalid. by right. }
  assert (delete_todo id db = (RequestValidationError, db)) as Hdel.
  { unfold delete_todo. by rewrite (path_ge_1_false _ Hid). }
  assert (toggle_todo clock id db = (RequestValidationError, db)) as Htog.
  { unfold toggle_todo. by rewrite (path_ge_1_false _ Hid). }
  rewrite Hget, Hupd, Hdel, Htog. by repeat split.
Qed.

Lemma path_id_below_1_rejected_witness :
  0 < 1 ∧
  get_todo 0 fresh = (RequestValidationError, fresh) ∧
  update_todo 1500000 (mk_body (Value "Buy milk") (Value false)) 0 fresh =
    (RequestValidationError, fresh) ∧
  delete_todo 0 fresh = (RequestValidationError, fresh) ∧
  toggle_todo 1500000 0 fresh = (RequestValidationError, fresh) ∧
  (get_todo 0 fresh).1 ≠ not_found ∧
  (update_todo 1500000 (mk_body (Value "Buy milk") (Value false)) 0 fresh).1
    ≠ not_found ∧
  (delete_todo 0 fresh).1 ≠ not_found ∧
  (toggle_todo 1500000 0 fresh).1 ≠ not_found.
Proof.
  split; [lia|]. apply path_id_below_1_rejected. lia.
Defined.

(** ** List *)

Section Listing.
Implicit Types (db : store) (l : list (Z * Row.t)).

#[local] Instance id_desc_trans : Transitive id_desc.
Proof. intros a b c. unfold id_desc. lia. Qed.

#[local] Instance id_desc_total : Total id_desc.
Proof. intros a b. unfold id_desc. lia. Qed.

Lemma select_all_perm db : sql_select_all_desc db ≡ₚ map_to_list (todos db).
Proof. apply merge_sort_Permutation. Qed.

Lemma select_all_sorted db : StronglySorted id_desc (sql_select_all_desc db).
Proof. apply (StronglySorted_merge_sort id_desc). Qed.

(** Rows sorted by key with no key twice are strictly sorted, and so are
    the items made of them. *)
Lemma rows_to_items_sorted l :
  StronglySorted id_desc l → NoDup l.*1 →
  StronglySorted newer_first (map _row_to_todo l).
Proof.
  induction 1 as [|x l Hsorted IH Hall]; intros Hnd; cbn; constructor.
  - apply IH. by apply NoDup_cons in Hnd as [_ ?].
  - apply NoDup_cons in Hnd as [Hx _].
    apply Forall_forall. intros t Ht.
    apply list_elem_of_In in Ht. apply in_map_iff in Ht as (y & <- & Hy).
    apply list_elem_of_In in Hy.
    pose proof (proj1 (Forall_forall _ _) Hall y Hy) as Hle.
    unfold id_desc in Hle. unfold newer_first. cbn.
    assert (y.1 ≠ x.1); [|lia].
    intros Heq. apply Hx. rewrite <- Heq.
    apply list_elem_of_fmap. by exists y.
Qed.

Lemma select_all_elem db (row : Z * Row.t) :
  row ∈ sql_select_all_desc db ↔ todos db !! row.1 = Some row.2.
Proof.
  rewrite select_all_perm. destruct row as [id r].
  apply elem_of_map_to_list.
Qed.

End Listing.

(** C5. GET /todos returns every stored item, larger ids first, with
    [total] the number of items returned; on an empty table that is the
    empty list with total 0, and in no case an error.  The items are the
    rows: a record is listed exactly when the table holds a row under its
    id with its title, its timestamps, and a [completed] column that is
    nonzero exactly when the record says completed. *)
Theorem list_todos_all_newest_first db :
  ∃ l,
    list_todos db = (Returned l, db) ∧
    (∀ t, t ∈ TodoList.items l ↔
          ∃ r, todos db !! Todo.id t = Some r ∧
               Todo.title t = Row.title r ∧
               Todo.completed t = negb (Row.completed r =? 0) ∧
               Todo.created_at t = Row.created_at r ∧
               Todo.updated_at t = Row.updated_at r) ∧
    StronglySorted newer_first (TodoList.items l) ∧
    TodoList.total l = Z.of_nat (length (TodoList.items l)) ∧
    length (TodoList.items l) = size (todos db) ∧
    (todos db = ∅ → l = {| TodoList.items := []; TodoList.total := 0 |}).
Proof.
  eexists. split; [reflexivity|]. cbn [TodoList.items TodoList.total].
  split; [|split; [|split; [done|split]]].
  - intros t. rewrite list_elem_of_In, in_map_iff. split.
    + intros ([id r] & <- & Hin). exists r. cbn. split; [|done].
      apply list_elem_of_In in Hin. by apply select_all_elem in Hin.
    + intros (r & E & Ht & Hc & Hcr & Hup). exists (Todo.id t, r). split.
      * destruct t. cbn in *. by subst.
      * apply list_elem_of_In. by apply select_all_elem.
  - apply rows_to_items_sorted; [apply select_all_sorted|].
    rewrite select_all_perm. apply NoDup_fst_map_to_list.
  - rewrite length_map, select_all_perm. apply length_map_to_list.
  - intros Hempty. unfold sql_select_all_desc.
    by rewrite Hempty, map_to_list_empty.
Qed.

(** ** Reading back what was written *)

Section ReadBack.
Implicit Types (db : store) (id clock : Z) (r : Row.t) (b : json_body) (t : Todo.t).

Lemma get_todo_Returned id db t :
  (get_todo id db).1 = Returned t →
  1 ≤ id ∧ ∃ r, todos db !! id = Some r ∧ t = _row_to_todo (id, r).
Proof.
  destruct (Z_lt_le_dec id 1) as [Hid|Hid].
  { unfold get_todo. by rewrite (path_ge_1_false _ Hid). }
  destruct (todos db !! id) as [r|] eqn:E.
  - rewrite (get_todo_found _ _ _ Hid E). intros [= <-]. eauto.
  - rewrite (get_todo_missing _ _ Hid E). cbn. intros Hret.
    by apply unknown_id_not_returned in Hret.
Qed.

Lemma get_todo_db id db : (get_todo id db).2 = db.
Proof.
  unfold get_todo. destruct (path_ge_1 id); [|done].
  by destruct (sql_select_by_id id db) as [[row|]|].
Qed.

Lemma create_todo_Returned clock b db t db1 :
  create_todo clock b db = (Returned t, db1) →
  Todo.id t = next_id db ∧
  ∃ r, todos db1 !! Todo.id t = Some r ∧ t = _row_to_todo (Todo.id t, r).
Proof.
  destruct (parse_TodoCreate b) as [p|] eqn:Hp.
  - rewrite (create_todo_valid _ _ _ _ Hp). intros [= <- <-].
    split; [done|]. exists (created_row clock p). cbn.
    by rewrite lookup_insert_eq.
  - by rewrite (create_todo_invalid _ _ _ Hp).
Qed.

Lemma update_todo_Returned clock b id db t db1 :
  update_todo clock b id db = (Returned t, db1) →
  1 ≤ Todo.id t ∧
  ∃ r, todos db1 !! Todo.id t = Some r ∧ t = _row_to_todo (Todo.id t, r).
Proof.
  destruct (parse_TodoUpdate b) as [p|] eqn:Hp;
    [destruct (Z_lt_le_dec id 1) as [Hid|Hid]|].
  - by rewrite update_todo_invalid by auto.
  - destruct (todos db !! id) as [r|] eqn:E.
    + rewrite (update_todo_found _ _ _ _ _ _ Hp Hid E). intros [= <- <-].
      split; [done|]. exists (updated_row clock p r). cbn.
      by rewrite lookup_insert_eq.
    + rewrite (update_todo_missing _ _ _ _ _ Hp Hid E). intros [= Hret _].
      by apply unknown_id_not_returned in Hret.
  - by rewrite update_todo_invalid by auto.
Qed.

Lemma toggle_todo_Returned clock id db t db1 :
  toggle_todo clock id db = (Returned t, db1) →
  1 ≤ Todo.id t ∧
  ∃ r, todos db1 !! Todo.id t = Some r ∧ t = _row_to_todo (Todo.id t, r).
Proof.
  destruct (Z_lt_le_dec id 1) as [Hid|Hid].
  { unfold toggle_todo. by rewrite (path_ge_1_false _ Hid). }
  destruct (todos db !! id) as [r|] eqn:E.
  - rewrite (toggle_todo_found _ _ _ _ Hid E). intros [= <- <-].
    split; [done|]. exists (toggled_row clock r). cbn.
    by rewrite lookup_insert_eq.
  - rewrite (toggle_todo_missing _ _ _ Hid E). intros [= Hret _].
    by apply unknown_id_not_returned in Hret.
Qed.

(** A request that does not address row [i] leaves it as it is. *)
Lemma step_untouched (e : event) db i r :
  todos db !! i = Some r → rewrites e.2 ≠ Some i →
  todos (step e db) !! i = Some r.
Proof.
  intros E Hne.
  destruct e as [clock [b| |id|id b|id|id]]; unfold step; cbn [fst snd] in *.
  - destruct (parse_TodoCreate b) as [p|] eqn:Hp.
    + rewrite (create_todo_valid _ _ _ _ Hp). cbn.
      rewrite lookup_insert_ne; [done|].
      apply next_id_above_key in E. lia.
    + by rewrite (create_todo_invalid _ _ _ Hp).
  - done.
  - by rewrite get_todo_db.
  - assert (id ≠ i) by (cbn in Hne; congruence).
    destruct (parse_TodoUpdate b) as [p|] eqn:Hp;
      [destruct (Z_lt_le_dec id 1) as [Hid|Hid]|].
    + by rewrite update_todo_invalid by auto.
    + destruct (todos db !! id) as [r'|] eqn:E'.
      * rewrite (update_todo_found _ _ _ _ _ _ Hp Hid E'). cbn.
        by rewrite lookup_insert_ne.
      * by rewrite (update_todo_missing _ _ _ _ _ Hp Hid E').
    + by rewrite update_todo_invalid by auto.
  - assert (id ≠ i) by (cbn in Hne; congruence).
    destruct (Z_lt_le_dec id 1) as [Hid|Hid].
    + unfold delete_todo. by rewrite (path_ge_1_false _ Hid).
    + destruct (Z_le_gt_dec id 9223372036854775807) as [Hmax|Hmax];
        [|by rewrite delete_todo_overflow by lia].
      destruct (todos db !! id) as [r'|] eqn:E'.
      * rewrite (delete_todo_found _ _ _ Hid Hmax E'). cbn.
        by rewrite lookup_delete_ne.
      * by rewrite (delete_todo_missing _ _ Hid E').
  - assert (id ≠ i) by (cbn in Hne; congruence).
    destruct (Z_lt_le_dec id 1) as [Hid|Hid].
    + unfold toggle_todo. by rewrite (path_ge_1_false _ Hid).
    + destruct (todos db !! id) as [r'|] eqn:E'.
      * rewrite (toggle_todo_found _ _ _ _ Hid E'). cbn.
        by rewrite lookup_insert_ne.
      * by rewrite (toggle_todo_missing _ _ _ Hid E').
Qed.

Lemma run_untouched tr db i r :
  todos db !! i = Some r → Forall (λ e, rewrites e.2 ≠ Some i) tr →
  todos (run tr db) !! i = Some r.
Proof.
  revert db. induction tr as [|e tr IH]; intros db E Hall; [done|].
  apply Forall_cons in Hall as [He Hall]. cbn.
  apply IH; [|done]. by apply step_untouched.
Qed.

End ReadBack.

(** C2. After a create, an update or a toggle has returned a record, a
    get of its id returns that same record, field for field, for as long
    as no later update, toggle or delete addresses that id; what happens
    to other ids in between, creates included, makes no difference. *)
Theorem get_todo_returns_last_write clock b id db t db1 tr :
  reachable db →
  create_todo clock b db = (Returned t, db1) ∨
  update_todo clock b id db = (Returned t, db1) ∨
  toggle_todo clock id db = (Returned t, db1) →
  Forall (λ e, rewrites e.2 ≠ Some (Todo.id t)) tr →
  get_todo (Todo.id t) (run tr db1) = (Returned t, run tr db1).
Proof.
  intros Hreach Hwrite Hrest.
  assert (1 ≤ Todo.id t ∧
          ∃ r, todos db1 !! Todo.id t = Some r ∧ t = _row_to_todo (Todo.id t, r))
    as (Hid & r & E & Ht).
  { destruct Hwrite as [Hc|[Hu|Ht]].
    - apply create_todo_Returned in Hc as [Hid Hr]. split; [|done].
      apply reachable_inv in Hreach as [Hseq _ _ _].
      pose proof (next_id_above_seq db). lia.
    - by apply update_todo_Returned in Hu.
    - by apply toggle_todo_Returned in Ht. }
  rewrite Ht at 2.
  apply get_todo_found; [done|]. by apply run_untouched.
Qed.

Lemma get_todo_returns_last_write_witness :
  reachable (run [(1500000, CreateTodo (mk_body (Value "Buy milk") Missing))] fresh) ∧
  (create_todo 2500000 (mk_body (Value "Buy milk") Missing)
     (run [(1500000, CreateTodo (mk_body (Value "Buy milk") Missing))] fresh) =
     (Returned (Todo.mk 1 "Buy milk" true (Some 1) (Some 2)),
      {| todos := {[ 1 := Row.mk "Buy milk" 1 (Some 1) (Some 2) ]};
         sqlite_sequence := 1 |}) ∨
   update_todo 2500000 (mk_body (Value "Buy milk") Missing) 1
     (run [(1500000, CreateTodo (mk_body (Value "Buy milk") Missing))] fresh) =
     (Returned (Todo.mk 1 "Buy milk" true (Some 1) (Some 2)),
      {| todos := {[ 1 := Row.mk "Buy milk" 1 (Some 1) (Some 2) ]};
         sqlite_sequence := 1 |}) ∨
   toggle_todo 2500000 1
     (run [(1500000, CreateTodo (mk_body (Value "Buy milk") Missing))] fresh) =
     (Returned (Todo.mk 1 "Buy milk" true (Some 1) (Some 2)),
      {| todos := {[ 1 := Row.mk "Buy milk" 1 (Some 1) (Some 2) ]};
         sqlite_sequence := 1 |})) ∧
  Forall (λ e : Z * request, rewrites e.2 ≠ Some 1)
    [(3500000, CreateTodo (mk_body (Value "Walk dog") (Value true)));
     (4500000, ToggleTodo 2); (5500000, ListTodos)] ∧
  get_todo 1
    (run [(3500000, CreateTodo (mk_body (Value "Walk dog") (Value true)));
          (4500000, ToggleTodo 2); (5500000, ListTodos)]
       {| todos := {[ 1 := Row.mk "Buy milk" 1 (Some 1) (Some 2) ]};
          sqlite_sequence := 1 |}) =
  (Returned (Todo.mk 1 "Buy milk" true (Some 1) (Some 2)),
   run [(3500000, CreateTodo (mk_body (Value "Walk dog") (Value true)));
        (4500000, ToggleTodo 2); (5500000, ListTodos)]
     {| todos := {[ 1 := Row.mk "Buy milk" 1 (Some 1) (Some 2) ]};
        sqlite_sequence := 1 |}).
Proof.
  assert (reachable
            (run [(1500000, CreateTodo (mk_body (Value "Buy milk") Missing))] fresh))
    as Hreach by (by eexists).
  assert (Forall (λ e : Z * request, rewrites e.2 ≠ Some 1)
            [(3500000, CreateTodo (mk_body (Value "Walk dog") (Value true)));
             (4500000, ToggleTodo 2); (5500000, ListTodos)]) as Hrest.
  { repeat apply Forall_cons_2; [done..|apply Forall_nil_2]. }
  split; [exact Hreach|]. split; [right; right; reflexivity|].
  split; [exact Hrest|].
  exact (get_todo_returns_last_write 2500000
           (mk_body (Value "Buy milk") Missing) 1
           (run [(1500000, CreateTodo (mk_body (Value "Buy milk") Missing))] fresh)
           (Todo.mk 1 "Buy milk" true (Some 1) (Some 2))
           {| todos := {[ 1 := Row.mk "Buy milk" 1 (Some 1) (Some 2) ]};
              sqlite_sequence := 1 |}
           [(3500000, CreateTodo (mk_body (Value "Walk dog") (Value true)));
            (4500000, ToggleTodo 2); (5500000, ListTodos)]
           Hreach (or_intror (or_intror eq_refl)) Hrest).
Defined.

(** ** Toggle *)





(** ** Invariants of the stored items *)

(** C9. In every database the service gets into, every stored item has a
    non-empty title; its [updated_at] is not before its [created_at], the
    clock not going back; and an id that was in the table at any earlier
    point, deleted since or not, is below the id of any item created now,
    so that no id is handed out twice. *)
Theorem stored_items_invariants tr1 tr2 :
  (∀ id r, todos (run (tr1 ++ tr2) fresh) !! id = Some r →
     Row.title r ≠ "") ∧
  (∀ c0 id r,
     chronological c0 (tr1 ++ tr2) →
     todos (run (tr1 ++ tr2) fresh) !! id = Some r →
     ∃ cr up, Row.created_at r = Some cr ∧ Row.updated_at r = Some up ∧
              cr ≤ up) ∧
  (∀ id clock b t db',
     is_Some (todos (run tr1 fresh) !! id) →
     create_todo clock b (run (tr1 ++ tr2) fresh) = (Returned t, db') →
     id < Todo.id t).
Proof.
  split; [|split].
  - pose proof (run_inv (tr1 ++ tr2) fresh fresh_inv) as [_ _ Htitle _].
    eauto.
  - intros c0 id r Hchron E.
    destruct (run_stamped _ c0 fresh Hchron (fresh_stamped c0) id r E)
      as (cr & up & ? & ? & ? & _).
    eauto.
  - intros id clock b t db' [r E] Hcreate.
    apply create_todo_Returned in Hcreate as [-> _].
    pose proof (run_inv tr1 fresh fresh_inv) as [_ Hkey _ _].
    apply Hkey in E. rewrite run_app.
    pose proof (run_seq tr2 (run tr1 fresh)).
    pose proof (next_id_above_seq (run tr2 (run tr1 fresh))). lia.
Qed.

(** C9, as the spec words it, fails where the clock goes back: an item
    created at 5 s and toggled when the clock reads 1 s has [created_at]
    5 and [updated_at] 1. *)
Lemma stored_item_updated_before_created :
  ∃ r,
    todos (run [(5000000, CreateTodo (mk_body (Value "Buy milk") Missing));
                (1000000, ToggleTodo 1)] fresh) !! 1 = Some r ∧
    Row.created_at r = Some 5 ∧
    Row.updated_at r = Some 1 ∧
    ¬ ts_le (Row.created_at r) (Row.updated_at r).
Proof.
  eexists. do 3 (split; [reflexivity|]).
  intros Hle. vm_compute in Hle. by apply Hle.
Qed.

(** The invariants at work: two creates, then an update, a toggle and a
    delete, served at increasing clock readings. *)
Lemma stored_items_invariants_witness :
  chronological 0
    ([(1500000, CreateTodo (mk_body (Value "Buy milk") Missing));
      (2500000, CreateTodo (mk_body (Value "Walk dog") (Value true)))] ++
     [(3500000, UpdateTodo 1 (mk_body (Value "Buy bread") (Value true)));
      (4500000, ToggleTodo 1);
      (5500000, DeleteTodo 2)]) ∧
  todos (run ([(1500000, CreateTodo (mk_body (Value "Buy milk") Missing));
               (2500000, CreateTodo (mk_body (Value "Walk dog") (Value true)))] ++
              [(3500000, UpdateTodo 1 (mk_body (Value "Buy bread") (Value true)));
               (4500000, ToggleTodo 1);
               (5500000, DeleteTodo 2)]) fresh) !! 1 =
    Some (Row.mk "Buy bread" 0 (Some 1) (Some 4)) ∧
  is_Some (todos (run [(1500000, CreateTodo (mk_body (Value "Buy milk") Missing));
                       (2500000, CreateTodo (mk_body (Value "Walk dog") (Value true)))]
                    fresh) !! 2) ∧
  create_todo 6500000 (mk_body (Value "Call mum") Missing)
    (run ([(1500000, CreateTodo (mk_body (Value "Buy milk") Missing));
           (2500000, CreateTodo (mk_body (Value "Walk dog") (Value true)))] ++
          [(3500000, UpdateTodo 1 (mk_body (Value "Buy bread") (Value true)));
           (4500000, ToggleTodo 1);
           (5500000, DeleteTodo 2)]) fresh) =
    (Returned (Todo.mk 3 "Call mum" false (Some 6) (Some 6)),
     {| todos := {[ 1 := Row.mk "Buy bread" 0 (Some 1) (Some 4);
                    3 := Row.mk "Call mum" 0 (Some 6) (Some 6) ]};
        sqlite_sequence := 3 |}) ∧
  Row.title (Row.mk "Buy bread" 0 (Some 1) (Some 4)) ≠ "" ∧
  (∃ cr up,
     Row.created_at (Row.mk "Buy bread" 0 (Some 1) (Some 4)) = Some cr ∧
     Row.updated_at (Row.mk "Buy bread" 0 (Some 1) (Some 4)) = Some up ∧
     cr ≤ up) ∧
  2 < Todo.id (Todo.mk 3 "Call mum" false (Some 6) (Some 6)).
Proof.
  pose proof
    (stored_items_invariants
       [(1500000, CreateTodo (mk_body (Value "Buy milk") Missing));
        (2500000, CreateTodo (mk_body (Value "Walk dog") (Value true)))]
       [(3500000, UpdateTodo 1 (mk_body (Value "Buy bread") (Value true)));
        (4500000, ToggleTodo 1);
        (5500000, DeleteTodo 2)]) as (Htitle & Hstamp & Hfresh).
  assert (chronological 0
    ([(1500000, CreateTodo (mk_body (Value "Buy milk") Missing));
      (2500000, CreateTodo (mk_body (Value "Walk dog") (Value true)))] ++
     [(3500000, UpdateTodo 1 (mk_body (Value "Buy bread") (Value true)));
      (4500000, ToggleTodo 1);
      (5500000, DeleteTodo 2)])) as Hchron by (cbn; lia).
  split; [exact Hchron|]. split; [reflexivity|]. split; [by eexists|].
  split; [reflexivity|].
  split; [exact (Htitle 1 _ eq_refl)|].
  split; [exact (Hstamp 0 1 _ Hchron eq_refl)|].
  exact (Hfresh 2 6500000 (mk_body (Value "Call mum") Missing) _ _
           (ex_intro _ _ eq_refl) eq_refl).
Defined.

(** ** Scenarios *)

(** Three creates give ids 1, 2 and 3, listed as 3, 2, 1. *)
Example list_after_three_creates :
  map Todo.id
    match (list_todos
             (run [(1500000, CreateTodo (mk_body (Value "a") Missing));
                   (2500000, CreateTodo (mk_body (Value "b") Missing));
                   (3500000, CreateTodo (mk_body (Value "c") Missing))] fresh)).1
    with Returned l => TodoList.items l | _ => [] end
  = [3; 2; 1].
Proof. reflexivity. Qed.

(** Create, toggle, get, delete, get. *)
Example buy_milk_scenario :
  let created := create_todo 1500000 (mk_body (Value "Buy milk") Missing) fresh in
  let toggled := toggle_todo 2500000 1 created.2 in
  let fetched := get_todo 1 toggled.2 in
  let deleted := delete_todo 1 fetched.2 in
  let missing := get_todo 1 deleted.2 in
  created.1 = Returned (Todo.mk 1 "Buy milk" false (Some 1) (Some 1)) ∧
  toggled.1 = Returned (Todo.mk 1 "Buy milk" true (Some 1) (Some 2)) ∧
  fetched.1 = Returned (Todo.mk 1 "Buy milk" true (Some 1) (Some 2)) ∧
  deleted.1 = Returned {| status_code := 204; body := "" |} ∧
  missing.1 = HTTPException 404 "Todo not found".
Proof. repeat split; reflexivity. Qed.

(** An id freed by a delete is not handed out again. *)
Example deleted_id_not_reused :
  (create_todo 3500000 (mk_body (Value "b") Missing)
     (run [(1500000, CreateTodo (mk_body (Value "a") Missing));
           (2500000, DeleteTodo 1)] fresh)).1
  = Returned (Todo.mk 2 "b" false (Some 3) (Some 3)).
Proof. reflexivity. Qed.

(** ** Further properties: configuration *)

(** X1. The database path is never empty.  A non-empty
    TODO_SQLITE_DB_PATH wins over everything; when it is unset or empty a
    non-empty SQLITE_DB_PATH is taken; when both are unset or empty the
    path is todo.db. *)
Theorem get_db_path_precedence (environ : gmap string string) :
  get_db_path environ ≠ "" ∧
  (∀ p, environ !! "TODO_SQLITE_DB_PATH" = Some p → p ≠ "" →
        get_db_path environ = p) ∧
  (∀ a, environ !! "TODO_SQLITE_DB_PATH" = None ∨
        environ !! "TODO_SQLITE_DB_PATH" = Some "" →
        environ !! "SQLITE_DB_PATH" = Some a → a ≠ "" →
        get_db_path environ = a) ∧
  (environ !! "TODO_SQLITE_DB_PATH" = None ∨
   environ !! "TODO_SQLITE_DB_PATH" = Some "" →
   environ !! "SQLITE_DB_PATH" = None ∨
   environ !! "SQLITE_DB_PATH" = Some "" →
   get_db_path environ = "todo.db").
Proof.
  unfold get_db_path, getenv. repeat split.
  - destruct (environ !! "TODO_SQLITE_DB_PATH") as [[|a s]|];
      destruct (environ !! "SQLITE_DB_PATH") as [[|a' s']|]; done.
  - intros p -> Hp. by destruct p.
  - intros a [-> | ->] -> Ha; by destruct a.
  - by intros [-> | ->] [-> | ->].
Qed.

Example get_db_path_empty_primary :
  get_db_path {[ "TODO_SQLITE_DB_PATH" := ""; "SQLITE_DB_PATH" := "/data/t.db" ]}
  = "/data/t.db".
Proof. reflexivity. Qed.

(** ** Further properties: validation and failure *)

Section Failure.
Implicit Types (db : store) (id clock : Z) (r : Row.t) (b : json_body).

Lemma parse_TodoCreate_Some b :
  is_Some (parse_TodoCreate b) ↔
  (∃ s, body_title b = Value s ∧ s ≠ "") ∧ body_completed b ≠ Invalid.
Proof.
  unfold parse_TodoCreate. split.
  - intros [p Hp].
    destruct (body_title b) as [| |s|], (body_completed b) as [| |c|];
      try done.
    all: destruct (min_length_1 s) eqn:E; [|done].
    all: split; [|done]; exists s; split; [done|];
      by apply min_length_1_nonempty.
  - intros [(s & -> & Hs) Hc]. apply min_length_1_nonempty in Hs.
    destruct (body_completed b) as [| |c|]; try done; rewrite Hs; by eexists.
Qed.

Lemma parse_TodoUpdate_Some b :
  is_Some (parse_TodoUpdate b) ↔
  ∃ s c, body_title b = Value s ∧ s ≠ "" ∧ body_completed b = Value c.
Proof.
  unfold parse_TodoUpdate. split.
  - intros [p Hp].
    destruct (body_title b) as [| |s|], (body_completed b) as [| |c|];
      try done.
    destruct (min_length_1 s) eqn:E; [|done].
    exists s, c. repeat split. by apply min_length_1_nonempty.
  - intros (s & c & -> & Hs & ->). apply min_length_1_nonempty in Hs.
    rewrite Hs. by eexists.
Qed.

End Failure.

(** X2. POST /todos is answered with the validation error exactly when
    the body has no non-empty text for [title], or has for [completed] a
    value that is neither a boolean nor null; PUT /todos/{id} exactly
    when the body has no non-empty text for [title], or no boolean for
    [completed] (left out, null or of another type), or the path id is
    below 1.  [completed] may be left out of a create, not of an
    update. *)
Theorem validation_error_exactly clock b id db :
  ((create_todo clock b db).1 = RequestValidationError ↔
     ¬ (∃ s, body_title b = Value s ∧ s ≠ "") ∨ body_completed b = Invalid) ∧
  ((update_todo clock b id db).1 = RequestValidationError ↔
     ¬ (∃ s c, body_title b = Value s ∧ s ≠ "" ∧ body_completed b = Value c)
     ∨ id < 1).
Proof.
  split.
  - pose proof (parse_TodoCreate_Some b) as Hiff.
    destruct (parse_TodoCreate b) as [p|] eqn:Hp.
    + rewrite (create_todo_valid _ _ _ _ Hp). cbn. split; [done|].
      destruct (proj1 Hiff ltac:(by eexists)) as [Ht Hc].
      intros [Hno|Hinv]; [by destruct Hno|by destruct Hc].
    + rewrite (create_todo_invalid _ _ _ Hp). cbn. split; [|done].
      intros _.
      destruct (body_completed b) as [| |c|] eqn:Ec; [..|by right]; left;
        intros Ht; destruct (proj2 Hiff) as [p' Hp']; done.
  - rewrite <- parse_TodoUpdate_Some.
    destruct (parse_TodoUpdate b) as [p|] eqn:Hp;
      [destruct (Z_lt_le_dec id 1) as [Hid|Hid]|].
    + rewrite update_todo_invalid by auto. cbn. split; auto.
    + destruct (todos db !! id) as [r|] eqn:E.
      * rewrite (update_todo_found _ _ _ _ _ _ Hp Hid E). cbn.
        split; [done|]. intros [Hno|?]; [|lia]. destruct Hno. by eexists.
      * rewrite (update_todo_missing _ _ _ _ _ Hp Hid E). cbn.
        split; [by intros ?%unknown_id_not_invalid|].
        intros [Hno|?]; [|lia]. destruct Hno. by eexists.
    + rewrite update_todo_invalid by auto. cbn. split; [|done].
      intros _. left. intros [p Hp']. done.
Qed.

Example validation_error_wrong_type :
  (create_todo 1500000 (mk_body (Value "Buy milk") Invalid) fresh).1 =
    RequestValidationError ∧
  (update_todo 1500000 (mk_body (Value "Buy milk") Invalid) 1 fresh).1 =
    RequestValidationError ∧
  (create_todo 1500000 (mk_body Invalid Missing) fresh).1 =
    RequestValidationError.
Proof. repeat split. Qed.

(** X3. A request that does not end in the handler's return value leaves
    the database exactly as it was, whichever handler served it and
    whichever error it ended in; a get and a list leave it as it was in
    every case. *)
Theorem failed_request_changes_nothing clock b id db :
  (is_returned (create_todo clock b db).1 = false →
     (create_todo clock b db).2 = db) ∧
  (is_returned (update_todo clock b id db).1 = false →
     (update_todo clock b id db).2 = db) ∧
  (is_returned (delete_todo id db).1 = false → (delete_todo id db).2 = db) ∧
  (is_returned (toggle_todo clock id db).1 = false →
     (toggle_todo clock id db).2 = db) ∧
  (get_todo id db).2 = db ∧
  (list_todos db).2 = db.
Proof.
  repeat split.
  - destruct (parse_TodoCreate b) as [p|] eqn:Hp.
    + by rewrite (create_todo_valid _ _ _ _ Hp).
    + by rewrite (create_todo_invalid _ _ _ Hp).
  - destruct (parse_TodoUpdate b) as [p|] eqn:Hp;
      [destruct (Z_lt_le_dec id 1) as [Hid|Hid]|].
    + by rewrite update_todo_invalid by auto.
    + destruct (todos db !! id) as [r|] eqn:E.
      * by rewrite (update_todo_found _ _ _ _ _ _ Hp Hid E).
      * by rewrite (update_todo_missing _ _ _ _ _ Hp Hid E).
    + by rewrite update_todo_invalid by auto.
  - destruct (Z_lt_le_dec id 1) as [Hid|Hid].
    { unfold delete_todo. by rewrite (path_ge_1_false _ Hid). }
    destruct (Z_le_gt_dec id 9223372036854775807) as [Hmax|Hmax];
      [|by rewrite delete_todo_overflow by lia].
    destruct (todos db !! id) as [r|] eqn:E.
    + by rewrite (delete_todo_found _ _ _ Hid Hmax E).
    + by rewrite (delete_todo_missing _ _ Hid E).
  - destruct (Z_lt_le_dec id 1) as [Hid|Hid].
    { unfold toggle_todo. by rewrite (path_ge_1_false _ Hid). }
    destruct (todos db !! id) as [r|] eqn:E.
    + by rewrite (toggle_todo_found _ _ _ _ Hid E).
    + by rewrite (toggle_todo_missing _ _ _ Hid E).
  - apply get_todo_db.
Qed.

(** X4. A get, a toggle or a delete of an id from 1 up that is not in the
    table leaves the database as it was.  It ends in the 404 "Todo not
    found" when the id is at most 2^63-1; a larger id cannot be bound to
    the statement, and the request ends in a 500. *)
Theorem unknown_id_not_found clock id db :
  1 ≤ id → todos db !! id = None →
  (id ≤ 9223372036854775807 →
     get_todo id db = (HTTPException 404 "Todo not found", db) ∧
     toggle_todo clock id db = (HTTPException 404 "Todo not found", db) ∧
     delete_todo id db = (HTTPException 404 "Todo not found", db)) ∧
  (9223372036854775807 < id →
     get_todo id db = (ServerError, db) ∧
     toggle_todo clock id db = (ServerError, db) ∧
     delete_todo id db = (ServerError, db)).
Proof.
  intros Hid E.
  rewrite (get_todo_missing _ _ Hid E), (toggle_todo_missing _ _ _ Hid E),
          (delete_todo_missing _ _ Hid E).
  split; intros Hmax.
  - by rewrite !unknown_id_in_range.
  - by rewrite !unknown_id_overflow.
Qed.

Lemma unknown_id_not_found_witness :
  (1 ≤ 7 ∧
   todos (run [(1500000, CreateTodo (mk_body (Value "Buy milk") Missing))] fresh)
     !! 7 = None ∧
   7 ≤ 9223372036854775807 ∧
   get_todo 7
     (run [(1500000, CreateTodo (mk_body (Value "Buy milk") Missing))] fresh) =
     (HTTPException 404 "Todo not found",
      run [(1500000, CreateTodo (mk_body (Value "Buy milk") Missing))] fresh) ∧
   toggle_todo 2500000 7
     (run [(1500000, CreateTodo (mk_body (Value "Buy milk") Missing))] fresh) =
     (HTTPException 404 "Todo not found",
      run [(1500000, CreateTodo (mk_body (Value "Buy milk") Missing))] fresh) ∧
   delete_todo 7
     (run [(1500000, CreateTodo (mk_body (Value "Buy milk") Missing))] fresh) =
     (HTTPException 404 "Todo not found",
      run [(1500000, CreateTodo (mk_body (Value "Buy milk") Missing))] fresh)) ∧
  (1 ≤ 9223372036854775808 ∧
   todos fresh !! 9223372036854775808 = None ∧
   9223372036854775807 < 9223372036854775808 ∧
   get_todo 9223372036854775808 fresh = (ServerError, fresh) ∧
   toggle_todo 2500000 9223372036854775808 fresh = (ServerError, fresh) ∧
   delete_todo 9223372036854775808 fresh = (ServerError, fresh)).
Proof.
  split.
  - split; [lia|]. split; [reflexivity|]. split; [lia|].
    exact (proj1 (unknown_id_not_found 2500000 7
                    (run [(1500000, CreateTodo (mk_body (Value "Buy milk") Missing))]
                       fresh)
                    ltac:(lia) eq_refl) ltac:(lia)).
  - split; [lia|]. split; [reflexivity|]. split; [lia|].
    exact (proj2 (unknown_id_not_found 2500000 9223372036854775808 fresh
                    ltac:(lia) eq_refl) ltac:(lia)).
Defined.

(** ** Further properties: what each write changes *)

Section Frames.
Implicit Types (db : store) (id clock : Z) (r : Row.t) (b : json_body).

Lemma listing_total_size db : listing_total db = Z.of_nat (size (todos db)).
Proof.
  unfold listing_total, list_todos. cbn.
  by rewrite length_map, select_all_perm, length_map_to_list.
Qed.

Lemma listing_elem db (t : Todo.t) :
  t ∈ listing db ↔ ∃ id r, todos db !! id = Some r ∧ t = _row_to_todo (id, r).
Proof.
  unfold listing, list_todos. cbn.
  rewrite list_elem_of_In, in_map_iff. split.
  - intros ([id r] & <- & Hin). exists id, r. split; [|done].
    apply list_elem_of_In in Hin. by apply select_all_elem in Hin.
  - intros (id & r & E & ->). exists (id, r). split; [done|].
    apply list_elem_of_In. by apply select_all_elem.
Qed.

Lemma listing_sorted db : StronglySorted newer_first (listing db).
Proof.
  unfold listing, list_todos. cbn.
  apply rows_to_items_sorted; [apply select_all_sorted|].
  rewrite select_all_perm. apply NoDup_fst_map_to_list.
Qed.

(** The first item of the listing is the one with the largest id. *)
Lemma listing_head db (t : Todo.t) :
  t ∈ listing db → (∀ t', t' ∈ listing db → Todo.id t' ≤ Todo.id t) →
  head (listing db) = Some t.
Proof.
  pose proof (listing_sorted db) as Hsorted.
  destruct (listing db) as [|h l]; intros Hin Hmax.
  - by apply elem_of_nil in Hin.
  - cbn. f_equal. apply elem_of_cons in Hin as [->|Hin]; [done|].
    apply StronglySorted_inv in Hsorted as [_ Hall].
    pose proof (proj1 (Forall_forall _ _) Hall t Hin) as Hlt.
    unfold newer_first in Hlt.
    assert (Todo.id h ≤ Todo.id t) by (apply Hmax; left). lia.
Qed.

End Frames.

(** X5. A create that returns adds exactly one row, under an id larger
    than every id in the table and than the counter; every row that was
    there stays as it was.  The new item is the first of the listing and
    the total goes up by one.  This holds in any database, not only in
    those the service produced. *)
Theorem create_todo_adds_one_row clock b db t db' :
  create_todo clock b db = (Returned t, db') →
  todos db !! Todo.id t = None ∧
  sqlite_sequence db < Todo.id t ∧
  sqlite_sequence db' = Todo.id t ∧
  (∀ j r, todos db !! j = Some r → j < Todo.id t ∧ todos db' !! j = Some r) ∧
  (∀ j, j ≠ Todo.id t → todos db' !! j = todos db !! j) ∧
  head (listing db') = Some t ∧
  listing_total db' = listing_total db + 1.
Proof.
  destruct (parse_TodoCreate b) as [p|] eqn:Hp;
    [|by rewrite (create_todo_invalid _ _ _ Hp)].
  rewrite (create_todo_valid _ _ _ _ Hp). intros [= <- <-].
  cbn [_row_to_todo Todo.id fst todos sqlite_sequence].
  pose proof (next_id_fresh db) as Hfresh.
  pose proof (next_id_above_seq db) as Hseq.
  repeat split; try done.
  - by apply next_id_above_key in H.
  - rewrite lookup_insert_ne; [done|]. apply next_id_above_key in H. lia.
  - intros j Hj. by rewrite lookup_insert_ne.
  - apply listing_head.
    + apply listing_elem. eexists _, _. split; [|done].
      cbn. apply lookup_insert_eq.
    + intros t' Ht'. apply listing_elem in Ht' as (j & r & Hj & ->).
      cbn in *. apply lookup_insert_Some in Hj as [[<- _]|[_ Hj]]; [lia|].
      apply next_id_above_key in Hj. lia.
  - rewrite !listing_total_size. cbn.
    rewrite map_size_insert_None by done. lia.
Qed.

Lemma create_todo_adds_one_row_witness :
  create_todo 2500000 (mk_body (Value "Walk dog") (Value true))
    (run [(1500000, CreateTodo (mk_body (Value "Buy milk") Missing))] fresh) =
    (Returned (Todo.mk 2 "Walk dog" true (Some 2) (Some 2)),
     {| todos := {[ 1 := Row.mk "Buy milk" 0 (Some 1) (Some 1);
                    2 := Row.mk "Walk dog" 1 (Some 2) (Some 2) ]};
        sqlite_sequence := 2 |}) ∧
  head (listing
          {| todos := {[ 1 := Row.mk "Buy milk" 0 (Some 1) (Some 1);
                         2 := Row.mk "Walk dog" 1 (Some 2) (Some 2) ]};
             sqlite_sequence := 2 |}) =
    Some (Todo.mk 2 "Walk dog" true (Some 2) (Some 2)).
Proof.
  split; [reflexivity|].
  exact (proj1 (proj2 (proj2 (proj2 (proj2 (proj2
    (create_todo_adds_one_row 2500000
       (mk_body (Value "Walk dog") (Value true))
       (run [(1500000, CreateTodo (mk_body (Value "Buy milk") Missing))] fresh)
       (Todo.mk 2 "Walk dog" true (Some 2) (Some 2))
       {| todos := {[ 1 := Row.mk "Buy milk" 0 (Some 1) (Some 1);
                      2 := Row.mk "Walk dog" 1 (Some 2) (Some 2) ]};
          sqlite_sequence := 2 |}
       eq_refl))))))).
Defined.

(** X6. On a table that has not reached the last key 2^63-1 (neither a
    row nor the counter is there), a create with a non-empty title and a
    [completed] that is a boolean, null or left out returns, with the
    title as sent and [completed] as sent; a [completed] of null is
    accepted and stored as false, like one left out. *)
Theorem create_todo_completed clock (title : string) (c : field bool) db :
  title ≠ "" → c ≠ Invalid →
  sqlite_sequence db < 9223372036854775807 →
  (∀ id r, todos db !! id = Some r → id < 9223372036854775807) →
  ∃ t db' r,
    create_todo clock (mk_body (Value title) c) db = (Returned t, db') ∧
    Todo.title t = title ∧
    Todo.completed t = match c with Value sent => sent | _ => false end ∧
    Todo.id t ≤ 9223372036854775807 ∧
    todos db' !! Todo.id t = Some r ∧
    Row.completed r = (if Todo.completed t then 1 else 0).
Proof.
  intros Htitle Hc Hseq Hkeys. apply min_length_1_nonempty in Htitle.
  assert (∃ p, parse_TodoCreate (mk_body (Value title) c) = Some p ∧
               TodoCreate.title p = title ∧
               truthy (TodoCreate.completed p) =
                 match c with Value sent => sent | _ => false end)
    as (p & Hp & Hpt & Hpc).
  { unfold parse_TodoCreate. cbn.
    destruct c as [| |[]|]; try done; rewrite Htitle; by eexists. }
  assert (next_id db ≤ 9223372036854775807) as Hfits.
  { unfold next_id, new_rowid.
    destruct (last_rowid (todos db)) as [k|] eqn:E; cbn zeta.
    - destruct (last_rowid_is_key _ _ E) as [r Hr]. apply Hkeys in Hr.
      destruct (Z.ltb_spec (k + 1) (sqlite_sequence db + 1)); lia.
    - destruct (Z.ltb_spec 1 (sqlite_sequence db + 1)); lia. }
  eexists _, _, (created_row clock p).
  split; [apply (create_todo_valid _ _ _ _ Hp)|].
  cbn [_row_to_todo Todo.title Todo.completed Todo.id fst snd todos
       created_row Row.title Row.completed].
  rewrite lookup_insert_eq, Hpt, <- Hpc.
  repeat split; try done. all: by destruct (truthy (TodoCreate.completed p)).
Qed.

Lemma create_todo_completed_witness :
  "Buy milk" ≠ "" ∧
  @Null bool ≠ Invalid ∧
  sqlite_sequence fresh < 9223372036854775807 ∧
  (∀ id r, todos fresh !! id = Some r → id < 9223372036854775807) ∧
  ∃ t db' r,
    create_todo 1500000 (mk_body (Value "Buy milk") Null) fresh =
      (Returned t, db') ∧
    Todo.title t = "Buy milk" ∧
    Todo.completed t = false ∧
    Todo.id t ≤ 9223372036854775807 ∧
    todos db' !! Todo.id t = Some r ∧
    Row.completed r = (if Todo.completed t then 1 else 0).
Proof.
  assert (∀ id r, todos fresh !! id = Some r → id < 9223372036854775807)
    as Hkeys.
  { intros id r E. cbn in E. by rewrite lookup_empty in E. }
  split; [done|]. split; [done|]. split; [cbn; lia|]. split; [exact Hkeys|].
  apply (create_todo_completed 1500000 "Buy milk" Null fresh);
    [done|done|cbn; lia|exact Hkeys].
Defined.

(** X7. A toggle of a stored id from 1 up always returns.  It writes 0
    over a stored [completed] of 1 and 1 over anything else, sets
    [updated_at] to the current UTC time, and leaves the title,
    [created_at], every other row and the counter alone.  The
    [completed] it reports is the opposite of the one reported before
    exactly when the stored value was 0 or 1. *)
Theorem toggle_todo_writes clock id db r :
  1 ≤ id → todos db !! id = Some r →
  ∃ t db' r',
    toggle_todo clock id db = (Returned t, db') ∧
    t = _row_to_todo (id, r') ∧
    todos db' !! id = Some r' ∧
    Row.completed r' = (if Row.completed r =? 1 then 0 else 1) ∧
    Row.updated_at r' = Some (_utc_now_iso clock) ∧
    Row.title r' = Row.title r ∧
    Row.created_at r' = Row.created_at r ∧
    (∀ j, j ≠ id → todos db' !! j = todos db !! j) ∧
    sqlite_sequence db' = sqlite_sequence db ∧
    (Todo.completed t = negb (Todo.completed (_row_to_todo (id, r))) ↔
       Row.completed r = 0 ∨ Row.completed r = 1).
Proof.
  intros Hid E. eexists _, _, (toggled_row clock r).
  split; [apply (toggle_todo_found _ _ _ _ Hid E)|].
  cbn [todos sqlite_sequence]. rewrite lookup_insert_eq.
  repeat split; try done.
  - intros j Hj. by rewrite lookup_insert_ne.
  - cbn. destruct (Z.eqb_spec (Row.completed r) 1) as [->|H1]; [auto|].
    destruct (Z.eqb_spec (Row.completed r) 0) as [->|H0]; [auto|done].
  - cbn. intros [->| ->]; done.
Qed.

Lemma toggle_todo_writes_witness :
  1 ≤ 4 ∧
  todos {| todos := {[ 4 := Row.mk "Imported" 2 None None ]};
           sqlite_sequence := 4 |} !! 4 =
    Some (Row.mk "Imported" 2 None None) ∧
  ∃ t db' r',
    toggle_todo 1500000 4
      {| todos := {[ 4 := Row.mk "Imported" 2 None None ]};
         sqlite_sequence := 4 |} = (Returned t, db') ∧
    t = _row_to_todo (4, r') ∧
    todos db' !! 4 = Some r' ∧
    Row.completed r' = 1 ∧
    Row.updated_at r' = Some (_utc_now_iso 1500000) ∧
    Row.title r' = "Imported" ∧
    Row.created_at r' = None ∧
    (∀ j, j ≠ 4 →
       todos db' !! j =
       todos {| todos := {[ 4 := Row.mk "Imported" 2 None None ]};
                sqlite_sequence := 4 |} !! j) ∧
    sqlite_sequence db' = 4 ∧
    (Todo.completed t =
       negb (Todo.completed (_row_to_todo (4, Row.mk "Imported" 2 None None))) ↔
     2 = 0 ∨ 2 = 1).
Proof.
  split; [lia|]. split; [reflexivity|].
  exact (toggle_todo_writes 1500000 4
           {| todos := {[ 4 := Row.mk "Imported" 2 None None ]};
              sqlite_sequence := 4 |}
           (Row.mk "Imported" 2 None None) ltac:(lia) eq_refl).
Defined.

(** X8. A delete of a stored id from 1 up, within the 64 bits of a key,
    always answers 204; it removes that row and no other, leaves the
    counter alone, and the total of the listing goes down by one. *)
Theorem delete_todo_removes_one_row id db r :
  1 ≤ id → id ≤ 9223372036854775807 → todos db !! id = Some r →
  ∃ db',
    delete_todo id db = (Returned {| status_code := 204; body := "" |}, db') ∧
    todos db' !! id = None ∧
    (∀ j, j ≠ id → todos db' !! j = todos db !! j) ∧
    sqlite_sequence db' = sqlite_sequence db ∧
    listing_total db' = listing_total db - 1.
Proof.
  intros Hid Hmax E. eexists.
  split; [apply (delete_todo_found _ _ _ Hid Hmax E)|].
  cbn [todos sqlite_sequence]. repeat split.
  - apply lookup_delete_eq.
  - intros j Hj. by rewrite lookup_delete_ne.
  - rewrite !listing_total_size. cbn [todos].
    rewrite <- (insert_delete_id (todos db) id r E) at 2.
    rewrite map_size_insert_None by apply lookup_delete_eq. lia.
Qed.

Lemma delete_todo_removes_one_row_witness :
  1 ≤ 1 ∧
  1 ≤ 9223372036854775807 ∧
  todos (run [(1500000, CreateTodo (mk_body (Value "Buy milk") Missing));
              (2500000, CreateTodo (mk_body (Value "Walk dog") Missing))] fresh)
    !! 1 = Some (Row.mk "Buy milk" 0 (Some 1) (Some 1)) ∧
  ∃ db',
    delete_todo 1
      (run [(1500000, CreateTodo (mk_body (Value "Buy milk") Missing));
            (2500000, CreateTodo (mk_body (Value "Walk dog") Missing))] fresh) =
      (Returned {| status_code := 204; body := "" |}, db') ∧
    todos db' !! 1 = None ∧
    (∀ j, j ≠ 1 →
       todos db' !! j =
       todos (run [(1500000, CreateTodo (mk_body (Value "Buy milk") Missing));
                   (2500000, CreateTodo (mk_body (Value "Walk dog") Missing))]
                fresh) !! j) ∧
    sqlite_sequence db' = 2 ∧
    listing_total db' = 2 - 1.
Proof.
  split; [lia|]. split; [lia|]. split; [reflexivity|].
  exact (delete_todo_removes_one_row 1
           (run [(1500000, CreateTodo (mk_body (Value "Buy milk") Missing));
                 (2500000, CreateTodo (mk_body (Value "Walk dog") Missing))] fresh)
           (Row.mk "Buy milk" 0 (Some 1) (Some 1))
           ltac:(lia) ltac:(lia) eq_refl).
Defined.

(** X9. A full update makes what was written to the row before
    irrelevant: after an update or a toggle of a stored id, an update of
    the same id gives the very response and the very database it would
    have given without them. *)
Theorem update_todo_overrides c1 c2 b1 b2 p2 id db r :
  parse_TodoUpdate b2 = Some p2 → 1 ≤ id → todos db !! id = Some r →
  update_todo c2 b2 id (update_todo c1 b1 id db).2 = update_todo c2 b2 id db ∧
  update_todo c2 b2 id (toggle_todo c1 id db).2 = update_todo c2 b2 id db.
Proof.
  intros Hp2 Hid E.
  rewrite (update_todo_found c2 _ _ _ db _ Hp2 Hid E). split.
  - destruct (parse_TodoUpdate b1) as [p1|] eqn:Hp1.
    + rewrite (update_todo_found c1 _ _ _ _ _ Hp1 Hid E). cbn [snd].
      erewrite update_todo_found; [|done..|cbn; apply lookup_insert_eq].
      cbn [todos sqlite_sequence]. by rewrite insert_insert_eq.
    + rewrite (update_todo_invalid c1) by auto. cbn [snd].
      apply (update_todo_found c2 _ _ _ _ _ Hp2 Hid E).
  - rewrite (toggle_todo_found c1 _ _ _ Hid E). cbn [snd].
    erewrite update_todo_found; [|done..|cbn; apply lookup_insert_eq].
    cbn [todos sqlite_sequence]. by rewrite insert_insert_eq.
Qed.

Lemma update_todo_overrides_witness :
  parse_TodoUpdate (mk_body (Value "Buy bread") (Value false)) =
    Some (TodoUpdate.mk "Buy bread" false) ∧
  1 ≤ 1 ∧
  todos (run [(1500000, CreateTodo (mk_body (Value "Buy milk") Missing))] fresh)
    !! 1 = Some (Row.mk "Buy milk" 0 (Some 1) (Some 1)) ∧
  update_todo 3500000 (mk_body (Value "Buy bread") (Value false)) 1
    (update_todo 2500000 (mk_body (Value "Buy eggs") (Value true)) 1
       (run [(1500000, CreateTodo (mk_body (Value "Buy milk") Missing))] fresh)).2
  = update_todo 3500000 (mk_body (Value "Buy bread") (Value false)) 1
      (run [(1500000, CreateTodo (mk_body (Value "Buy milk") Missing))] fresh) ∧
  update_todo 3500000 (mk_body (Value "Buy bread") (Value false)) 1
    (toggle_todo 2500000 1
       (run [(1500000, CreateTodo (mk_body (Value "Buy milk") Missing))] fresh)).2
  = update_todo 3500000 (mk_body (Value "Buy bread") (Value false)) 1
      (run [(1500000, CreateTodo (mk_body (Value "Buy milk") Missing))] fresh).
Proof.
  split; [reflexivity|]. split; [lia|]. split; [reflexivity|].
  exact (update_todo_overrides 2500000 3500000
           (mk_body (Value "Buy eggs") (Value true))
           (mk_body (Value "Buy bread") (Value false))
           (TodoUpdate.mk "Buy bread" false) 1
           (run [(1500000, CreateTodo (mk_body (Value "Buy milk") Missing))] fresh)
           (Row.mk "Buy milk" 0 (Some 1) (Some 1))
           eq_refl ltac:(lia) eq_refl).
Defined.

(** ** Further properties: the databases the service produces *)

Section Produced.
Implicit Types (db : store) (id clock : Z) (r : Row.t) (b : json_body).

(** Where no key is above the counter, the next id is the counter plus
    one. *)
Lemma next_id_inv db : store_inv db → next_id db = sqlite_sequence db + 1.
Proof.
  intros [Hseq Hkey _ _]. unfold next_id. apply new_rowid_bounded; [done|].
  intros id r E. apply Hkey in E. lia.
Qed.

Lemma step_counter (e : event) db :
  store_inv db →
  sqlite_sequence (step e db) =
  sqlite_sequence db + (if accepted_create e.2 then 1 else 0).
Proof.
  intros Hinv.
  destruct e as [clock [b| |id|id b|id|id]]; unfold step; cbn [fst snd accepted_create].
  - destruct (parse_TodoCreate b) as [p|] eqn:Hp.
    + rewrite (create_todo_valid _ _ _ _ Hp). cbn. by apply next_id_inv.
    + rewrite (create_todo_invalid _ _ _ Hp). cbn. lia.
  - cbn. lia.
  - rewrite get_todo_db. lia.
  - destruct (parse_TodoUpdate b) as [p|] eqn:Hp;
      [destruct (Z_lt_le_dec id 1) as [Hid|Hid]|].
    + rewrite update_todo_invalid by auto. cbn. lia.
    + destruct (todos db !! id) as [r|] eqn:E.
      * rewrite (update_todo_found _ _ _ _ _ _ Hp Hid E). cbn. lia.
      * rewrite (update_todo_missing _ _ _ _ _ Hp Hid E). cbn. lia.
    + rewrite update_todo_invalid by auto. cbn. lia.
  - destruct (Z_lt_le_dec id 1) as [Hid|Hid].
    + unfold delete_todo. rewrite (path_ge_1_false _ Hid). cbn. lia.
    + destruct (Z_le_gt_dec id 9223372036854775807) as [Hmax|Hmax];
        [|rewrite delete_todo_overflow by lia; cbn; lia].
      destruct (todos db !! id) as [r|] eqn:E.
      * rewrite (delete_todo_found _ _ _ Hid Hmax E). cbn. lia.
      * rewrite (delete_todo_missing _ _ Hid E). cbn. lia.
  - destruct (Z_lt_le_dec id 1) as [Hid|Hid].
    + unfold toggle_todo. rewrite (path_ge_1_false _ Hid). cbn. lia.
    + destruct (todos db !! id) as [r|] eqn:E.
      * rewrite (toggle_todo_found _ _ _ _ Hid E). cbn. lia.
      * rewrite (toggle_todo_missing _ _ _ Hid E). cbn. lia.
Qed.

Lemma run_counter tr db :
  store_inv db →
  sqlite_sequence (run tr db) = sqlite_sequence db + accepted_creates tr.
Proof.
  revert db. induction tr as [|e tr IH]; intros db Hinv; [cbn; lia|].
  change (run (e :: tr) db) with (run tr (step e db)).
  rewrite IH by (eapply transition_inv; [apply step_transition|done]).
  rewrite (step_counter e db Hinv). cbn [accepted_creates]. lia.
Qed.

End Produced.

Section Preserved.
Implicit Types (db : store) (id clock : Z) (r : Row.t) (b : json_body).

(** What every transition keeps, every run keeps. *)
Lemma run_preserves (P : store → Prop) :
  (∀ clock db db', transition clock db db' → P db → P db') →
  ∀ tr db, P db → P (run tr db).
Proof.
  intros Hstep tr. induction tr as [|e tr IH]; intros db Hdb; [done|].
  apply (IH (step e db)). eapply Hstep; [apply step_transition|done].
Qed.

(** No row of a produced database lacks a timestamp. *)
Lemma run_has_stamps tr id r :
  todos (run tr fresh) !! id = Some r →
  is_Some (Row.created_at r) ∧ is_Some (Row.updated_at r).
Proof.
  revert id r.
  apply (run_preserves (λ db, ∀ id r, todos db !! id = Some r →
           is_Some (Row.created_at r) ∧ is_Some (Row.updated_at r))).
  - intros clock db db' Ht Hdb.
    destruct Ht as [|p Hp|id p r Hid E Hp|id r Hid E|id r Hid E];
      [done|..]; intros j rj Hj; cbn [todos] in Hj.
    + apply lookup_insert_Some in Hj as [[<- <-]|[_ Hj]]; [|eauto].
      cbn. split; by eexists.
    + apply lookup_insert_Some in Hj as [[<- <-]|[_ Hj]]; [|eauto].
      cbn. split; [by eapply Hdb|by eexists].
    + apply lookup_insert_Some in Hj as [[<- <-]|[_ Hj]]; [|eauto].
      cbn. split; [by eapply Hdb|by eexists].
    + apply lookup_delete_Some in Hj as [_ Hj]. eauto.
  - intros id r. cbn. by rewrite lookup_empty.
Qed.

(** There are never more rows than ids handed out. *)
Lemma run_size tr :
  Z.of_nat (size (todos (run tr fresh))) ≤ sqlite_sequence (run tr fresh).
Proof.
  apply (run_preserves
           (λ db, Z.of_nat (size (todos db)) ≤ sqlite_sequence db)).
  - intros clock db db' Ht Hdb. pose proof (next_id_above_seq db).
    destruct Ht as [|p Hp|id p r Hid E Hp|id r Hid E|id r Hid E];
      [done|..]; cbn [todos sqlite_sequence].
    + rewrite map_size_insert_None by apply next_id_fresh. lia.
    + by rewrite map_size_insert_Some by eauto.
    + by rewrite map_size_insert_Some by eauto.
    + rewrite map_size_delete_Some by eauto. lia.
  - cbn. by rewrite map_size_empty.
Qed.

(** An id at or below the counter that is not in the table never comes
    back. *)
Lemma run_stays_gone tr db id :
  todos db !! id = None → id ≤ sqlite_sequence db →
  todos (run tr db) !! id = None.
Proof.
  intros E Hle.
  apply (run_preserves
           (λ db, todos db !! id = None ∧ id ≤ sqlite_sequence db));
    [|done].
  clear. intros clock db db' Ht [E Hle]. pose proof (next_id_above_seq db).
  destruct Ht as [|p Hp|j p r Hj Ej Hp|j r Hj Ej|j r Hj Ej];
    [done|..]; cbn [todos sqlite_sequence]; (split; [|lia]).
  - rewrite lookup_insert_ne; [done|lia].
  - rewrite lookup_insert_ne; [done|congruence].
  - rewrite lookup_insert_ne; [done|congruence].
  - apply lookup_delete_None. auto.
Qed.

End Preserved.

(** X10. In a database the service produced, the items GET /todos lists
    are exactly the records GET /todos/{id} returns: an item is listed if
    and only if a get of its id returns it. *)
Theorem listing_agrees_with_get db (t : Todo.t) :
  reachable db →
  (t ∈ listing db ↔ (get_todo (Todo.id t) db).1 = Returned t).
Proof.
  intros Hreach. apply reachable_inv in Hreach as [_ Hkey _ _].
  rewrite listing_elem. split.
  - intros (id & r & E & ->). cbn [_row_to_todo Todo.id fst].
    rewrite (get_todo_found id db r); [done| |done].
    apply Hkey in E. lia.
  - intros Hget. apply get_todo_Returned in Hget as (_ & r & E & Ht). eauto.
Qed.

Lemma listing_agrees_with_get_witness :
  reachable (run [(1500000, CreateTodo (mk_body (Value "Buy milk") Missing));
                  (2500000, ToggleTodo 1)] fresh) ∧
  (Todo.mk 1 "Buy milk" true (Some 1) (Some 2) ∈
     listing (run [(1500000, CreateTodo (mk_body (Value "Buy milk") Missing));
                   (2500000, ToggleTodo 1)] fresh) ↔
   (get_todo 1 (run [(1500000, CreateTodo (mk_body (Value "Buy milk") Missing));
                     (2500000, ToggleTodo 1)] fresh)).1 =
     Returned (Todo.mk 1 "Buy milk" true (Some 1) (Some 2))).
Proof.
  split; [by eexists|].
  apply (listing_agrees_with_get
           (run [(1500000, CreateTodo (mk_body (Value "Buy milk") Missing));
                 (2500000, ToggleTodo 1)] fresh)
           (Todo.mk 1 "Buy milk" true (Some 1) (Some 2))).
  by eexists.
Defined.

(** X11. Ids count the accepted creates: on a deployment that started
    fresh, the item a create returns has for id one more than the number
    of creates accepted before it, whatever was updated, toggled, deleted
    or rejected in between. *)
Theorem create_todo_id_counts_creates tr clock b t db' :
  create_todo clock b (run tr fresh) = (Returned t, db') →
  Todo.id t = accepted_creates tr + 1.
Proof.
  intros Hcreate. apply create_todo_Returned in Hcreate as [-> _].
  rewrite next_id_inv by apply run_inv, fresh_inv.
  rewrite run_counter by apply fresh_inv. cbn. lia.
Qed.

Lemma create_todo_id_counts_creates_witness :
  create_todo 6500000 (mk_body (Value "Call mum") Missing)
    (run [(1500000, CreateTodo (mk_body (Value "Buy milk") Missing));
          (2500000, CreateTodo (mk_body (Value "") Missing));
          (3500000, CreateTodo (mk_body (Value "Walk dog") Missing));
          (4500000, DeleteTodo 2);
          (5500000, DeleteTodo 1)] fresh) =
    (Returned (Todo.mk 3 "Call mum" false (Some 6) (Some 6)),
     {| todos := {[ 3 := Row.mk "Call mum" 0 (Some 6) (Some 6) ]};
        sqlite_sequence := 3 |}) ∧
  Todo.id (Todo.mk 3 "Call mum" false (Some 6) (Some 6)) =
    accepted_creates
      [(1500000, CreateTodo (mk_body (Value "Buy milk") Missing));
       (2500000, CreateTodo (mk_body (Value "") Missing));
       (3500000, CreateTodo (mk_body (Value "Walk dog") Missing));
       (4500000, DeleteTodo 2);
       (5500000, DeleteTodo 1)] + 1.
Proof.
  split; [reflexivity|].
  exact (create_todo_id_counts_creates
           [(1500000, CreateTodo (mk_body (Value "Buy milk") Missing));
            (2500000, CreateTodo (mk_body (Value "") Missing));
            (3500000, CreateTodo (mk_body (Value "Walk dog") Missing));
            (4500000, DeleteTodo 2);
            (5500000, DeleteTodo 1)]
           6500000 (mk_body (Value "Call mum") Missing)
           (Todo.mk 3 "Call mum" false (Some 6) (Some 6))
           {| todos := {[ 3 := Row.mk "Call mum" 0 (Some 6) (Some 6) ]};
              sqlite_sequence := 3 |}
           eq_refl).
Defined.

(** X12. On a row the service wrote, a toggle is the full update that
    keeps the title and sends the opposite [completed]: same response,
    same database. *)
Theorem toggle_todo_is_flipping_update clock id db r :
  reachable db → todos db !! id = Some r →
  toggle_todo clock id db = update_todo clock (flipped_body r) id db.
Proof.
  intros Hreach E. apply reachable_inv in Hreach as [_ Hkey Htitle Hcompl].
  assert (1 ≤ id) as Hid by (apply Hkey in E; lia).
  specialize (Htitle id r E). specialize (Hcompl id r E).
  apply min_length_1_nonempty in Htitle.
  assert (parse_TodoUpdate (flipped_body r) =
            Some (TodoUpdate.mk (Row.title r) (Row.completed r =? 0))) as Hp.
  { unfold parse_TodoUpdate. cbn. by rewrite Htitle. }
  rewrite (toggle_todo_found _ _ _ _ Hid E),
          (update_todo_found _ _ _ _ _ _ Hp Hid E).
  assert (toggled_row clock r =
          updated_row clock (TodoUpdate.mk (Row.title r) (Row.completed r =? 0)) r)
    as ->; [|done].
  unfold toggled_row, updated_row. cbn. by destruct Hcompl as [-> | ->].
Qed.

Lemma toggle_todo_is_flipping_update_witness :
  reachable (run [(1500000, CreateTodo (mk_body (Value "Buy milk") Missing))] fresh) ∧
  todos (run [(1500000, CreateTodo (mk_body (Value "Buy milk") Missing))] fresh)
    !! 1 = Some (Row.mk "Buy milk" 0 (Some 1) (Some 1)) ∧
  toggle_todo 2500000 1
    (run [(1500000, CreateTodo (mk_body (Value "Buy milk") Missing))] fresh) =
  update_todo 2500000 (mk_body (Value "Buy milk") (Value true)) 1
    (run [(1500000, CreateTodo (mk_body (Value "Buy milk") Missing))] fresh).
Proof.
  split; [by eexists|]. split; [reflexivity|].
  exact (toggle_todo_is_flipping_update 2500000 1
           (run [(1500000, CreateTodo (mk_body (Value "Buy milk") Missing))] fresh)
           (Row.mk "Buy milk" 0 (Some 1) (Some 1))
           (ex_intro _ [(1500000, CreateTodo (mk_body (Value "Buy milk") Missing))]
              eq_refl)
           eq_refl).
Defined.

(** X13. Every item the service lists, on a deployment that started
    fresh, has an id between 1 and the counter, a non-empty title and
    both timestamps set, although the columns and the response model
    allow them to be null; and the total never exceeds the number of ids
    handed out. *)
Theorem produced_listing_well_formed tr :
  (∀ t, t ∈ listing (run tr fresh) →
     1 ≤ Todo.id t ≤ sqlite_sequence (run tr fresh) ∧
     Todo.title t ≠ "" ∧
     is_Some (Todo.created_at t) ∧
     is_Some (Todo.updated_at t)) ∧
  listing_total (run tr fresh) ≤ sqlite_sequence (run tr fresh) ∧
  sqlite_sequence (run tr fresh) = accepted_creates tr.
Proof.
  pose proof (run_inv tr fresh fresh_inv) as [_ Hkey Htitle _].
  split; [|split].
  - intros t Ht. apply listing_elem in Ht as (id & r & E & ->). cbn.
    split; [by eapply Hkey|]. split; [by eapply Htitle|].
    by eapply run_has_stamps.
  - rewrite listing_total_size. apply run_size.
  - by rewrite run_counter by apply fresh_inv.
Qed.

(** X14. Deleted is deleted for good: once the service has deleted an id,
    a get of it ends in the 404 after any further requests whatever, and
    no item of any later listing carries it. *)
Theorem deleted_id_stays_gone id db resp db' tr :
  reachable db →
  delete_todo id db = (Returned resp, db') →
  get_todo id (run tr db') = (HTTPException 404 "Todo not found", run tr db') ∧
  (∀ t, t ∈ listing (run tr db') → Todo.id t ≠ id).
Proof.
  intros Hreach Hdel. apply reachable_inv in Hreach as [_ Hkey _ _].
  apply delete_todo_Returned in Hdel as ([Hid Hmax] & r & E & _ & ->).
  assert (todos (run tr {| todos := delete id (todos db);
                           sqlite_sequence := sqlite_sequence db |}) !! id = None)
    as Hgone.
  { apply run_stays_gone; cbn; [apply lookup_delete_eq|].
    apply Hkey in E. lia. }
  split.
  { rewrite (get_todo_missing _ _ Hid Hgone). by rewrite unknown_id_in_range. }
  intros t Ht Heq. apply listing_elem in Ht as (j & r' & Ej & ->).
  cbn in Heq. subst j. congruence.
Qed.

Lemma deleted_id_stays_gone_witness :
  reachable (run [(1500000, CreateTodo (mk_body (Value "Buy milk") Missing))] fresh) ∧
  delete_todo 1
    (run [(1500000, CreateTodo (mk_body (Value "Buy milk") Missing))] fresh) =
    (Returned {| status_code := 204; body := "" |},
     {| todos := ∅; sqlite_sequence := 1 |}) ∧
  get_todo 1
    (run [(2500000, CreateTodo (mk_body (Value "Walk dog") Missing));
          (3500000, UpdateTodo 1 (mk_body (Value "Back") (Value true)));
          (4500000, ToggleTodo 1)]
       {| todos := ∅; sqlite_sequence := 1 |}) =
    (HTTPException 404 "Todo not found",
     run [(2500000, CreateTodo (mk_body (Value "Walk dog") Missing));
          (3500000, UpdateTodo 1 (mk_body (Value "Back") (Value true)));
          (4500000, ToggleTodo 1)]
       {| todos := ∅; sqlite_sequence := 1 |}).
Proof.
  split; [by eexists|]. split; [reflexivity|].
  exact (proj1 (deleted_id_stays_gone 1
           (run [(1500000, CreateTodo (mk_body (Value "Buy milk") Missing))] fresh)
           {| status_code := 204; body := "" |}
           {| todos := ∅; sqlite_sequence := 1 |}
           [(2500000, CreateTodo (mk_body (Value "Walk dog") Missing));
            (3500000, UpdateTodo 1 (mk_body (Value "Back") (Value true)));
            (4500000, ToggleTodo 1)]
           (ex_intro _ [(1500000, CreateTodo (mk_body (Value "Buy milk") Missing))]
              eq_refl)
           eq_refl)).
Defined.

(** ** Further properties: timestamps under a clock that does not go back *)

Section Chronology.
Implicit Types (db : store) (id clock : Z) (r : Row.t).

(** The second a timestamp names has begun by the time it is read. *)
Lemma utc_now_not_ahead clock : 1000000 * _utc_now_iso clock ≤ clock.
Proof. unfold _utc_now_iso. apply Z.mul_div_le. lia. Qed.

(** The rows were created in the order of their keys. *)
Lemma transition_created_in_order clock db db' :
  transition clock db db' → stamped_by clock db →
  (∀ i j ri rj ci cj,
     todos db !! i = Some ri → todos db !! j = Some rj → i < j →
     Row.created_at ri = Some ci → Row.created_at rj = Some cj → ci ≤ cj) →
  (∀ i j ri rj ci cj,
     todos db' !! i = Some ri → todos db' !! j = Some rj → i < j →
     Row.created_at ri = Some ci → Row.created_at rj = Some cj → ci ≤ cj).
Proof.
  intros Ht Hst Hord.
  destruct Ht as [|p Hp|id p r Hid E Hp|id r Hid E|id r Hid E];
    [done|..]; intros i j ri rj ci cj Hi Hj Hlt Hci Hcj; cbn [todos] in *.
  - apply lookup_insert_Some in Hi as [[Hi _]|[_ Hi]].
    + apply lookup_insert_Some in Hj as [[Hj _]|[_ Hj]]; [lia|].
      apply next_id_above_key in Hj. lia.
    + apply lookup_insert_Some in Hj as [[_ Hrj]|[_ Hj]]; [|eauto].
      destruct (Hst i ri Hi) as (cr & up & Hcr & _ & ? & ?).
      rewrite <- Hrj in Hcj. cbn in Hcj. simplify_eq. lia.
  - assert (∀ k rk, <[id:=updated_row clock p r]> (todos db) !! k = Some rk →
              ∃ rk', todos db !! k = Some rk' ∧
                     Row.created_at rk' = Row.created_at rk) as Hback.
    { intros k rk Hk. apply lookup_insert_Some in Hk as [[<- <-]|[_ Hk]]; eauto. }
    apply Hback in Hi as (ri' & Hi & Hei). apply Hback in Hj as (rj' & Hj & Hej).
    rewrite <- Hei in Hci. rewrite <- Hej in Hcj. eauto.
  - assert (∀ k rk, <[id:=toggled_row clock r]> (todos db) !! k = Some rk →
              ∃ rk', todos db !! k = Some rk' ∧
                     Row.created_at rk' = Row.created_at rk) as Hback.
    { intros k rk Hk. apply lookup_insert_Some in Hk as [[<- <-]|[_ Hk]]; eauto. }
    apply Hback in Hi as (ri' & Hi & Hei). apply Hback in Hj as (rj' & Hj & Hej).
    rewrite <- Hei in Hci. rewrite <- Hej in Hcj. eauto.
  - apply lookup_delete_Some in Hi as [_ Hi].
    apply lookup_delete_Some in Hj as [_ Hj]. eauto.
Qed.

Lemma run_created_in_order tr c0 db :
  chronological c0 tr → stamped_by c0 db →
  (∀ i j ri rj ci cj,
     todos db !! i = Some ri → todos db !! j = Some rj → i < j →
     Row.created_at ri = Some ci → Row.created_at rj = Some cj → ci ≤ cj) →
  (∀ i j ri rj ci cj,
     todos (run tr db) !! i = Some ri → todos (run tr db) !! j = Some rj →
     i < j →
     Row.created_at ri = Some ci → Row.created_at rj = Some cj → ci ≤ cj).
Proof.
  revert c0 db. induction tr as [|e tr IH]; intros c0 db Hc Hst Hord; [done|].
  destruct Hc as [Hc0 Hc].
  assert (stamped_by e.1 db) as Hst' by (by eapply stamped_by_mono).
  apply (IH e.1 (step e db) Hc).
  - eapply transition_stamped; [apply step_transition|done].
  - eapply transition_created_in_order; [apply step_transition|done..].
Qed.

End Chronology.

(** X15. With a clock that does not go back, no stored item is stamped
    in the future: the second its [updated_at] names has begun by the
    last clock reading, and its [created_at] is not after it. *)
Theorem timestamps_not_in_future c0 tr id r :
  chronological c0 tr → todos (run tr fresh) !! id = Some r →
  ∃ cr up,
    Row.created_at r = Some cr ∧ Row.updated_at r = Some up ∧
    cr ≤ up ∧ 1000000 * up ≤ last_clock c0 tr.
Proof.
  intros Hc E.
  destruct (run_stamped tr c0 fresh Hc (fresh_stamped c0) id r E)
    as (cr & up & Hcr & Hup & Hle & Hnow).
  exists cr, up. repeat split; try done.
  pose proof (utc_now_not_ahead (last_clock c0 tr)). lia.
Qed.

Lemma timestamps_not_in_future_witness :
  chronological 0
    [(1500000, CreateTodo (mk_body (Value "Buy milk") Missing));
     (3999999, ToggleTodo 1)] ∧
  todos (run [(1500000, CreateTodo (mk_body (Value "Buy milk") Missing));
              (3999999, ToggleTodo 1)] fresh) !! 1 =
    Some (Row.mk "Buy milk" 1 (Some 1) (Some 3)) ∧
  ∃ cr up,
    Row.created_at (Row.mk "Buy milk" 1 (Some 1) (Some 3)) = Some cr ∧
    Row.updated_at (Row.mk "Buy milk" 1 (Some 1) (Some 3)) = Some up ∧
    cr ≤ up ∧
    1000000 * up ≤
      last_clock 0 [(1500000, CreateTodo (mk_body (Value "Buy milk") Missing));
                    (3999999, ToggleTodo 1)].
Proof.
  split; [cbn; lia|]. split; [reflexivity|].
  exact (timestamps_not_in_future 0
           [(1500000, CreateTodo (mk_body (Value "Buy milk") Missing));
            (3999999, ToggleTodo 1)] 1
           (Row.mk "Buy milk" 1 (Some 1) (Some 3))
           ltac:(cbn; lia) eq_refl).
Defined.

(** X16. Newest first: with a clock that does not go back, the order of
    GET /todos, by id descending, is also the order of creation, latest
    first: of two listed items the one with the larger id was not created
    before the other. *)
Theorem listing_newest_first c0 tr (t1 t2 : Todo.t) :
  chronological c0 tr →
  t1 ∈ listing (run tr fresh) → t2 ∈ listing (run tr fresh) →
  Todo.id t1 < Todo.id t2 →
  ts_le (Todo.created_at t1) (Todo.created_at t2).
Proof.
  intros Hc Ht1 Ht2 Hlt.
  apply listing_elem in Ht1 as (i & ri & Hi & ->).
  apply listing_elem in Ht2 as (j & rj & Hj & ->).
  cbn in Hlt |- *.
  destruct (run_has_stamps tr i ri Hi) as [[ci Hci] _].
  destruct (run_has_stamps tr j rj Hj) as [[cj Hcj] _].
  rewrite Hci, Hcj. cbn.
  refine (run_created_in_order tr c0 fresh Hc (fresh_stamped c0) _
            i j ri rj ci cj Hi Hj Hlt Hci Hcj).
  intros ? ? ? ? ? ? Hempty. cbn in Hempty. by rewrite lookup_empty in Hempty.
Qed.

Lemma listing_newest_first_witness :
  chronological 0
    [(1500000, CreateTodo (mk_body (Value "Buy milk") Missing));
     (2500000, CreateTodo (mk_body (Value "Walk dog") Missing));
     (3500000, ToggleTodo 1)] ∧
  Todo.mk 1 "Buy milk" true (Some 1) (Some 3) ∈
    listing (run [(1500000, CreateTodo (mk_body (Value "Buy milk") Missing));
                  (2500000, CreateTodo (mk_body (Value "Walk dog") Missing));
                  (3500000, ToggleTodo 1)] fresh) ∧
  Todo.mk 2 "Walk dog" false (Some 2) (Some 2) ∈
    listing (run [(1500000, CreateTodo (mk_body (Value "Buy milk") Missing));
                  (2500000, CreateTodo (mk_body (Value "Walk dog") Missing));
                  (3500000, ToggleTodo 1)] fresh) ∧
  1 < 2 ∧
  ts_le (Some 1) (Some 2).
Proof.
  assert (Todo.mk 1 "Buy milk" true (Some 1) (Some 3) ∈
    listing (run [(1500000, CreateTodo (mk_body (Value "Buy milk") Missing));
                  (2500000, CreateTodo (mk_body (Value "Walk dog") Missing));
                  (3500000, ToggleTodo 1)] fresh)) as H1.
  { apply listing_elem. by exists 1, (Row.mk "Buy milk" 1 (Some 1) (Some 3)). }
  assert (Todo.mk 2 "Walk dog" false (Some 2) (Some 2) ∈
    listing (run [(1500000, CreateTodo (mk_body (Value "Buy milk") Missing));
                  (2500000, CreateTodo (mk_body (Value "Walk dog") Missing));
                  (3500000, ToggleTodo 1)] fresh)) as H2.
  { apply listing_elem. by exists 2, (Row.mk "Walk dog" 0 (Some 2) (Some 2)). }
  split; [cbn; lia|]. split; [exact H1|]. split; [exact H2|]. split; [lia|].
  exact (listing_newest_first 0
           [(1500000, CreateTodo (mk_body (Value "Buy milk") Missing));
            (2500000, CreateTodo (mk_body (Value "Walk dog") Missing));
            (3500000, ToggleTodo 1)]
           (Todo.mk 1 "Buy milk" true (Some 1) (Some 3))
           (Todo.mk 2 "Walk dog" false (Some 2) (Some 2))
           ltac:(cbn; lia) H1 H2 ltac:(cbn; lia)).
Defined.
